(** * phantom.faces: lazy model registry, landmark shapes, detection
      pipeline and Atlas persistence

    A shallow embedding of [src/phantom/faces/faces.py].  Python code that
    mutates module state or raises is written in a state-and-exception
    monad; the dlib / pickle / file-system calls the module delegates to are
    an interface ([Dlib]) whose operations may raise, and so are the
    drawing calls of OpenCV ([Cv2]). *)

From Stdlib Require Import ZArith Lia.
From stdpp Require Import base option strings list gmap fin_maps.

#[local] Set Warnings "-register-all".

Local Open Scope Z_scope.
Local Open Scope string_scope.
Local Open Scope list_scope.

(** ** Python runtime fragments *)

Module Py.

(** The exception classes the module can meet: the builtin ones, those of
    [pickle], and [cv2.error]. *)
Inductive exn_class :=
| BaseException | Exception
| LookupError | KeyError | IndexError
| TypeError | ValueError | AttributeError | RuntimeError
| OSError | FileNotFoundError | PermissionError
| EOFError | PickleError | PicklingError | UnpicklingError
| Cv2Error.

#[global] Instance exn_class_eq_dec : EqDecision exn_class.
Proof. solve_decision. Defined.

(** Direct base class, as in the CPython hierarchy. *)
Definition base (c : exn_class) : option exn_class :=
  match c with
  | BaseException => None
  | Exception => Some BaseException
  | LookupError | TypeError | ValueError | AttributeError | RuntimeError
  | OSError | EOFError | PickleError | Cv2Error => Some Exception
  | KeyError | IndexError => Some LookupError
  | FileNotFoundError | PermissionError => Some OSError
  | PicklingError | UnpicklingError => Some PickleError
  end.

Fixpoint mro_upto (fuel : nat) (c : exn_class) : list exn_class :=
  match fuel with
  | O => [c]
  | S n => c :: from_option (mro_upto n) [] (base c)
  end.

(** The hierarchy has depth 4. *)
Definition mro (c : exn_class) : list exn_class := mro_upto 4 c.

Definition issubclass (c d : exn_class) : bool := bool_decide (d ∈ mro c).

Record exn := Exn { exn_type : exn_class; exn_arg : string }.

Definition isinstance (e : exn) (c : exn_class) : bool :=
  issubclass (exn_type e) c.

Inductive outcome (A : Type) :=
| Ok (a : A)
| Raise (e : exn).
Arguments Ok {A} a.
Arguments Raise {A} e.

(** [p[i]] for a non-negative constant index. *)
Definition getitem {A} (p : list A) (i : nat) : outcome A :=
  match p !! i with
  | Some x => Ok x
  | None => Raise (Exn IndexError "list index out of range")
  end.

(** [p[a:b]] for non-negative constant bounds: indices a, a+1, ... below
    [min b (len p)]; empty when nothing is in range. *)
Definition slice {A} (p : list A) (a b : nat) : list A :=
  take (b - a) (drop a p).

(** [p[a:b:-1]] for non-negative constant bounds: the start is clamped to
    the last index, then indices are walked downwards while above [b]. *)
Definition slice_down {A} (p : list A) (a b : nat) : list A :=
  match length p with
  | O => []
  | S last =>
      let start := Nat.min a last in
      omap (λ i, p !! i) (reverse (seq (S b) (start - b)))
  end.

(** Code that mutates a state [S] and may raise. *)
Definition M (S A : Type) : Type := S → outcome A * S.

Section Monad.
Context {S : Type}.

Definition ret {A} (a : A) : M S A := λ st, (Ok a, st).

Definition raise {A} (c : exn_class) (msg : string) : M S A :=
  λ st, (Raise (Exn c msg), st).

Definition bind {A B} (m : M S A) (k : A → M S B) : M S B := λ st,
  match m st with
  | (Ok a, st') => k a st'
  | (Raise e, st') => (Raise e, st')
  end.

(** [try: body  except cls: handler] *)
Definition try_except {A} (body : M S A) (cls : exn_class) (handler : M S A)
    : M S A := λ st,
  match body st with
  | (Ok a, st') => (Ok a, st')
  | (Raise e, st') =>
      if isinstance e cls then handler st' else (Raise e, st')
  end.

Definition lift {A} (o : outcome A) : M S A := λ st, (o, st).

(** A comprehension [[f(x) for x in xs]]: left to right, stopping at the
    first exception. *)
Fixpoint for_each {A B} (f : A → M S B) (xs : list A) : M S (list B) :=
  match xs with
  | [] => ret []
  | x :: xs' =>
      bind (f x) (λ v, bind (for_each f xs') (λ vs, ret (v :: vs)))
  end.

End Monad.

(** [range(n)] *)
Definition range (n : nat) : list Z := Z.of_nat <$> seq 0 n.

End Py.
Export Py.

Notation "'let*' x ':=' m 'in' k" := (bind m (λ x, k))
  (at level 10, x name, m at level 100, k at level 200,
   format "'[v' 'let*'  x  :=  m  'in'  '/' k ']'").
Notation "'run' m 'in' k" := (bind m (λ _, k))
  (at level 10, m at level 100, k at level 200,
   format "'[v' 'run'  m  'in'  '/' k ']'").


(** ** The wrapped libraries *)

(** The coordinates of a [dlib.rectangle] are C [long]s (64 bits). *)
Definition LONG_MIN : Z := - 2 ^ 63.
Definition LONG_MAX : Z := 2 ^ 63 - 1.

Definition is_long (z : Z) : bool :=
  (LONG_MIN <=? z)%Z && (z <=? LONG_MAX)%Z.

Definition are_longs (l t r b : Z) : bool :=
  is_long l && is_long t && is_long r && is_long b.

(** [dlib.rectangle], [dlib.point], [dlib.full_object_detection]. *)
Record rectangle := Rectangle {
  rect_left : Z;
  rect_top : Z;
  rect_right : Z;
  rect_bottom : Z;
  rect_longs : Is_true (are_longs rect_left rect_top rect_right rect_bottom);
}.
Record dpoint := DPoint { x : Z; y : Z }.
Record full_object_detection :=
  FullObjectDetection { rect : rectangle; parts : list dpoint }.

(** A face location: [(left, top, right, bottom)]. *)
Definition location : Type := Z * Z * Z * Z.
(** A landmark: [(x, y)]. *)
Definition point : Type := Z * Z.

(** Everything the module calls but does not define.  Constructors of
    models read the disk and allocate, so they act on a [World]; calling a
    loaded model is a function of the model and its arguments.  All of them
    may raise.  [Obj] is the type of references to model objects: two
    references are equal exactly when they are the same object. *)
Class Dlib := {
  World : Type;
  Obj : Type;
  Image : Type;
  Descriptor : Type;
  dlib_version : string;
  resource_filename : string → string → string;
  get_frontal_face_detector : World → outcome Obj * World;
  face_recognition_model_v1 : string → World → outcome Obj * World;
  shape_predictor : string → World → outcome Obj * World;
  (** [open(path, "rb")] followed by [pickle.load] *)
  open_pickle_load : string → World → outcome Obj * World;
  (** [face_detector(img, upsample)] *)
  call_detector : Obj → Image → Z → outcome (list rectangle);
  (** [model(img, rect)] for a shape predictor *)
  call_predictor : Obj → Image → rectangle → outcome full_object_detection;
  (** [face_encoder.compute_face_descriptor(img, shape, jitter)], wrapped
      in [np.array] *)
  compute_face_descriptor :
    Obj → Image → full_object_detection → Z → outcome Descriptor;
}.

(** ** Execution state *)

Section State.
Context `{Dlib}.

(** A recipe [(initer, args, kwargs)] as [register] stores it; [get]
    applies [initer] to the unpacked [args] and [kwargs]. *)
Definition callable : Type :=
  list string → list (string * string) → World → outcome Obj * World.

Record recipe := Recipe {
  initer : callable;
  args : list string;
  kwargs : list (string * string);
}.

(** The attributes of a [_LazyStore]. *)
Record lazy_store := LazyStoreObj {
  dict : gmap string Obj;
  reg : gmap string recipe;
}.

(** Calls that leave the module, in the order they happen. *)
Inductive event :=
| EvFactory (key : string)
| EvDetector (m : Obj) (img : Image) (upsample : Z)
| EvPredictor (m : Obj) (img : Image) (r : rectangle)
| EvEncoder (m : Obj) (img : Image) (shape : full_object_detection) (jitter : Z).

Record state := State {
  lazy_vars : lazy_store;
  world : World;
  trace : list event;
}.

Definition emit (e : event) : M state unit := λ st,
  (Ok tt, State (lazy_vars st) (world st) (trace st ++ [e])).

End State.

(** ** [_LazyStore] *)

Module LazyStore.
Section Methods.
Context `{Dlib}.

(** [__init__(self, d=None, r=None)] *)
Definition init (d : option (gmap string Obj))
    (r : option (gmap string recipe)) : lazy_store :=
  let d := match d with None => ∅ | Some d => d end in
  let r := match r with None => ∅ | Some r => r end in
  LazyStoreObj d r.

(** The methods below run on the one store of the module, [lazy_vars]. *)

(** [self.dict[key]] *)
Definition dict_getitem (key : string) : M state Obj := λ st,
  match dict (lazy_vars st) !! key with
  | Some v => (Ok v, st)
  | None => (Raise (Exn KeyError key), st)
  end.

(** [self.reg[key]] *)
Definition reg_getitem (key : string) : M state recipe := λ st,
  match reg (lazy_vars st) !! key with
  | Some r => (Ok r, st)
  | None => (Raise (Exn KeyError key), st)
  end.

(** [self.dict[key] = store] *)
Definition dict_setitem (key : string) (store : Obj) : M state unit := λ st,
  let self := lazy_vars st in
  (Ok tt, State (LazyStoreObj (<[key := store]> (dict self)) (reg self))
                (world st) (trace st)).

(** [self.reg[key] = r] *)
Definition reg_setitem (key : string) (r : recipe) : M state unit := λ st,
  let self := lazy_vars st in
  (Ok tt, State (LazyStoreObj (dict self) (<[key := r]> (reg self)))
                (world st) (trace st)).

(** Applying the recipe stored for [key]: the call is recorded, then the
    constructor runs on the world. *)
Definition call (key : string) (r : recipe) : M state Obj := λ st,
  let '(res, w) := initer r (args r) (kwargs r) (world st) in
  (res, State (lazy_vars st) w (trace st ++ [EvFactory key])).

Definition register (key : string) (initer : callable) (args : list string)
    (kwargs : list (string * string)) : M state unit :=
  reg_setitem key (Recipe initer args kwargs).

Definition get (key : string) : M state Obj :=
  try_except (dict_getitem key) KeyError
    (let* store :=
       try_except (let* r := reg_getitem key in call key r) KeyError
         (raise KeyError "unregistered lazy key.") in
     run dict_setitem key store in
     ret store).

End Methods.
End LazyStore.

(** ** Module initialisation *)

Section ModuleLevel.
Context `{Dlib}.

(** How the registered constructors take the unpacked arguments. *)
Definition nullary (f : World → outcome Obj * World) : callable :=
  λ args kwargs w,
  match args, kwargs with
  | [], [] => f w
  | _, _ => (Raise (Exn TypeError "wrong number of arguments"), w)
  end.

Definition unary (f : string → World → outcome Obj * World) : callable :=
  λ args kwargs w,
  match args, kwargs with
  | [a], [] => f a w
  | _, _ => (Raise (Exn TypeError "wrong number of arguments"), w)
  end.

Definition _unpickle (path : string) : World → outcome Obj * World :=
  open_pickle_load path.

Definition _path_encoder : string :=
  resource_filename "phantom" "models/dlib_face_recognition_resnet_model_v1.dat".
Definition _path_gender : string :=
  if String.prefix "19.8" dlib_version
  then resource_filename "phantom" "models/phantom_gender_model_v1_dlib_19.8.dat"
  else resource_filename "phantom" "models/phantom_gender_model_v1.dat".
Definition _path_shape_5p : string :=
  resource_filename "phantom" "models/shape_predictor_5_face_landmarks.dat".
Definition _path_shape_68p : string :=
  resource_filename "phantom" "models/shape_predictor_68_face_landmarks.dat".

(** The five [lazy_vars.register] statements. *)
Definition register_models : M state unit :=
  run LazyStore.register "face_detector" (nullary get_frontal_face_detector) [] [] in
  run LazyStore.register "face_encoder" (unary face_recognition_model_v1) [_path_encoder] [] in
  run LazyStore.register "gender_model" (unary _unpickle) [_path_gender] [] in
  run LazyStore.register "shape_predictor_5p" (unary shape_predictor) [_path_shape_5p] [] in
  LazyStore.register "shape_predictor_68p" (unary shape_predictor) [_path_shape_68p] [].

(** The state once the module is imported in world [w]. *)
Definition imported (w : World) : state :=
  (register_models (State (LazyStore.init None None) w [])).2.

End ModuleLevel.

(** ** Shapes *)

Module Shape.
Section Classes.
Context `{Dlib}.

(** The base class and its two subclasses. *)
Inductive cls := Shape | Shape5p | Shape68p.

Record t := Make {
  points : list point;
  dict : gmap string (list point);
  model : option Obj;
  class : cls;
}.

(** [_make_dict]; the value is what [self.dict] holds afterwards. *)
Definition _make_dict (c : cls) (p : list point) : M state (gmap string (list point)) :=
  match c with
  | Shape => ret ∅
  | Shape5p =>
      let* p4 := lift (getitem p 4) in
      ret (list_to_map [
        ("eye_left",  slice p 0 2);
        ("eye_right", slice p 2 4);
        ("nose",      [p4]) ])
  | Shape68p =>
      let* p48 := lift (getitem p 48) in
      let* p60 := lift (getitem p 60) in
      ret (list_to_map [
        ("jawline",       slice p 0 17);
        ("eyebrow_right", slice p 17 22);
        ("eyebrow_left",  slice p 22 27);
        ("nose_bridge",   slice p 27 31);
        ("nose_tip",      slice p 31 36);
        ("eye_right",     slice p 36 42);
        ("eye_left",      slice p 42 48);
        ("lips_top",      slice p 48 55 ++ slice_down p 64 59);
        ("lips_bottom",   slice p 54 60 ++ [p48; p60] ++ slice_down p 67 63) ])
  end.

(** The registry key each subclass binds its predictor from. *)
Definition predictor_key (c : cls) : option string :=
  match c with
  | Shape => None
  | Shape5p => Some "shape_predictor_5p"
  | Shape68p => Some "shape_predictor_68p"
  end.

(** [__init__]: the base initialiser, then the subclass's binding of
    [self.model]. *)
Definition init (c : cls) (points : list point) : M state t :=
  let* d := _make_dict c points in
  match predictor_key c with
  | None => ret (Make points d None c)
  | Some key =>
      let* m := LazyStore.get key in
      ret (Make points d (Some m) c)
  end.

End Classes.
End Shape.

(** ** Detection, landmarks, encodings *)

Section Pipeline.
Context `{Dlib}.

Definition _rect_to_tuple (r : rectangle) : location :=
  (rect_left r, rect_top r, rect_right r, rect_bottom r).

(** Whether a condition holds, with the evidence when it does. *)
Definition check (b : bool) : option (Is_true b) :=
  match b with
  | true => Some I
  | false => None
  end.

(** [dlib.rectangle] applied to the unpacked tuple: the constructor takes
    four [long]s and rejects an integer that does not fit one. *)
Definition _tuple_to_rect (t : location) : outcome rectangle :=
  let '(l, t, r, b) := t in
  match check (are_longs l t r b) with
  | Some fits => Ok (Rectangle l t r b fits)
  | None => Raise (Exn TypeError "__init__(): incompatible constructor arguments")
  end.

(** [detect(img, *, upsample=1)] *)
Definition detect (img : Image) (upsample : Z) : M state (list location) :=
  let* face_detector := LazyStore.get "face_detector" in
  let* rects :=
    (run emit (EvDetector face_detector img upsample) in
     lift (call_detector face_detector img upsample)) in
  ret (_rect_to_tuple <$> rects).

Definition detect_cnn (img : Image) (upsample : Z) : M state (list location) :=
  ret [].

(** [model(img, rect)] where [model] is a shape's [model] attribute. *)
Definition call_model (model : option Obj) (img : Image) (r : rectangle)
    : M state full_object_detection :=
  match model with
  | None => raise TypeError "'NoneType' object is not callable"
  | Some m =>
      run emit (EvPredictor m img r) in
      lift (call_predictor m img r)
  end.

(** [model(img, _tuple_to_rect(loc))]: the argument is evaluated, then
    the call is made. *)
Definition predict (model : option Obj) (img : Image) (loc : location)
    : M state full_object_detection :=
  let* r := lift (_tuple_to_rect loc) in
  call_model model img r.

Definition range68 : list point := (λ i, (i, i)) <$> range 68.

(** [landmark(img, *, locations=None, model=Shape68p, upsample=1)] *)
Definition landmark (img : Image) (locations : option (list location))
    (model : Shape.cls) (upsample : Z) : M state (list Shape.t) :=
  let* locations :=
    match locations with
    | None => detect img upsample
    | Some l => ret l
    end in
  let class_ := model in
  let* shaper := Shape.init model range68 in
  let model := Shape.model shaper in
  let* shapelist :=
    for_each (λ loc, predict model img loc) locations in
  for_each (λ face, Shape.init class_ ((λ p, (x p, y p)) <$> parts face))
           shapelist.

(** [encode(img, *, locations=None, model=Shape68p, jitter=1)]; the call
    [detect(img)] leaves [upsample] at its default. *)
Definition encode (img : Image) (locations : option (list location))
    (model : Shape.cls) (jitter : Z) : M state (list Descriptor) :=
  let* locations :=
    match locations with
    | None => detect img 1
    | Some l => ret l
    end in
  let* shaper := Shape.init model range68 in
  let model := Shape.model shaper in
  let* face_encoder := LazyStore.get "face_encoder" in
  let* shapelist :=
    for_each (λ loc, predict model img loc) locations in
  for_each (λ shape,
      run emit (EvEncoder face_encoder img shape jitter) in
      lift (compute_face_descriptor face_encoder img shape jitter))
    shapelist.

End Pipeline.

(** ** Atlas *)

(** Values an Atlas holds and [pickle] stores: [None], booleans, integers,
    decimal floats [m * 10^e], strings, lists, dictionaries keyed by strings
    (their items in insertion order), and plain instances given by class
    name and constructor arguments. *)
Inductive pyval :=
| PNone
| PBool (b : bool)
| PInt (z : Z)
| PFloat (m e : Z)
| PStr (s : string)
| PList (l : list pyval)
| PDict (items : list (string * pyval))
| PInstance (cls : string) (params : list (string * pyval)).

(** What sits at a path: the pickle of a value, or bytes on which
    [pickle.load] raises [e]. *)
Inductive file :=
| Pickled (v : pyval)
| Unreadable (e : exn).

(** The file system: the files, and the paths that cannot be opened for
    writing. *)
Record disk := Disk {
  files : gmap string file;
  unwritable : gset string;
}.

Module Atlas.

(** An [Atlas] object is its [__dict__]; the methods run on [self] and the
    disk. *)
Record st := St {
  self : gmap string pyval;
  dsk : disk;
}.

(** [self.name] *)
Definition getattr (name : string) : M st pyval := λ s,
  match self s !! name with
  | Some v => (Ok v, s)
  | None => (Raise (Exn AttributeError name), s)
  end.

(** The file name [open] is given: a string; integers would be file
    descriptors, none of which is open. *)
Definition as_path (v : pyval) : M st string :=
  match v with
  | PStr p => ret p
  | PInt _ | PBool _ => raise OSError "Bad file descriptor"
  | _ => raise TypeError "expected str, bytes or os.PathLike object"
  end.

(** [open(path, "rb")] and [pickle.load(fhandle)] *)
Definition open_rb (path : string) : M st file := λ s,
  match files (dsk s) !! path with
  | Some f => (Ok f, s)
  | None => (Raise (Exn FileNotFoundError path), s)
  end.

Definition pickle_load (fhandle : file) : M st pyval :=
  match fhandle with
  | Pickled v => ret v
  | Unreadable e => lift (Raise e)
  end.

(** [open(path, "wb")] creates or truncates the file; [pickle.dump] then
    fills it. *)
Definition open_wb (path : string) : M st unit := λ s,
  if decide (path ∈ unwritable (dsk s))
  then (Raise (Exn PermissionError path), s)
  else (Ok tt, s).

Definition pickle_dump (v : pyval) (path : string) : M st unit := λ s,
  (Ok tt, St (self s)
             (Disk (<[path := Pickled v]> (files (dsk s))) (unwritable (dsk s)))).

(** [self.__dict__] as a value, and [self.__dict__.clear()]. *)
Definition dict_value : M st pyval := λ s,
  (Ok (PDict (map_to_list (self s))), s).

Definition dict_clear : M st unit := λ s, (Ok tt, St ∅ (dsk s)).

Definition setattr (name : string) (v : pyval) : M st unit := λ s,
  (Ok tt, St (<[name := v]> (self s)) (dsk s)).

(** One element of the sequence given to [dict.update]: it must itself be
    a sequence of length two, key then value.  Iterating a string gives its
    characters, iterating a dictionary its keys. *)
Definition as_pair (item : pyval) : outcome (pyval * pyval) :=
  match item with
  | PList [k; v] => Ok (k, v)
  | PStr (String a (String b EmptyString)) =>
      Ok (PStr (String a EmptyString), PStr (String b EmptyString))
  | PDict [(k1, _); (k2, _)] => Ok (PStr k1, PStr k2)
  | PList _ | PStr _ | PDict _ =>
      Raise (Exn ValueError "dictionary update sequence element has the wrong length")
  | _ =>
      Raise (Exn TypeError "cannot convert dictionary update sequence element to a sequence")
  end.

(** Storing under a key: lists and dictionaries are unhashable; a hashable
    key that is not a string names no attribute and is left out of
    [self]. *)
Definition update_item (item : pyval) : M st unit :=
  let* kv := lift (as_pair item) in
  match kv.1 with
  | PStr name => setattr name kv.2
  | PList _ | PDict _ => raise TypeError "unhashable type"
  | _ => ret tt
  end.

(** [self.__dict__.update(other)] *)
Definition dict_update (other : pyval) : M st unit :=
  match other with
  | PDict items =>
      run for_each (λ kv : string * pyval, setattr kv.1 kv.2) items in ret tt
  | PList items => run for_each update_item items in ret tt
  | PStr EmptyString => ret tt
  | PStr _ =>
      raise ValueError "dictionary update sequence element has the wrong length"
  | _ => raise TypeError "object is not iterable"
  end.

(** [DBSCAN(eps=0.475, min_samples=2)] *)
Definition _dbscan : pyval :=
  PInstance "DBSCAN" [("eps", PFloat 475 (-3)); ("min_samples", PInt 2)].

(** [Atlas(elements, path)]: the attributes [__init__] sets. *)
Definition init (elements path : pyval) : gmap string pyval :=
  <["_kmeans" := PNone]> (
  <["_dbscan" := _dbscan]> (
  <["path" := path]> (
  <["grouped" := PBool false]> (
  <["groups" := PNone]> (
  <["clusters" := PDict []]> (
  <["elements" := elements]> ∅)))))).

(** The body of [group] is [pass]. *)
Definition group : M st unit := ret tt.

Definition load : M st unit :=
  let* path := getattr "path" in
  let* path := as_path path in
  let* fhandle := open_rb path in
  let* new_dict := pickle_load fhandle in
  run dict_clear in
  dict_update new_dict.

Definition save : M st unit :=
  let* path := getattr "path" in
  let* path := as_path path in
  run open_wb path in
  let* d := dict_value in
  pickle_dump d path.

(** [v == True].  A float is the double nearest to [m * 10^e], and it
    equals [True] when that double is [1.0]: when [m * 10^e] lies between
    [1 - 2^-54] and [1 + 2^-53], the midpoints to the neighbouring doubles
    (a tie goes to the even significand, that of [1.0]). *)
Definition eq_True (v : pyval) : bool :=
  match v with
  | PBool b => b
  | PInt z => bool_decide (z = 1)
  | PFloat m e =>
      if decide (0 ≤ e)%Z then bool_decide (m * 10 ^ e = 1)
      else bool_decide (((2 ^ 54 - 1) * 10 ^ (- e) ≤ 2 ^ 54 * m)%Z ∧
                        (2 ^ 53 * m ≤ (2 ^ 53 + 1) * 10 ^ (- e))%Z)
  | _ => false
  end.

(** [v is not None] *)
Definition is_not_None (v : pyval) : bool :=
  match v with PNone => false | _ => true end.

(** [grouped == True] iff [groups is not None]; both attributes exist. *)
Definition invariant (a : gmap string pyval) : bool :=
  match a !! "grouped", a !! "groups" with
  | Some grouped, Some groups => eqb (eq_True grouped) (is_not_None groups)
  | _, _ => false
  end.

End Atlas.

(** A program over Atlas objects: the objects allocated so far, and the
    disk they share.  A method that raises leaves what it had done. *)
Record heap := Heap {
  atlases : list (gmap string pyval);
  hdisk : disk;
}.

Inductive op :=
| Construct (elements path : pyval)
| CallGroup (i : nat)
| CallSave (i : nat)
| CallLoad (i : nat).

Definition call_method (m : M Atlas.st unit) (i : nat) (h : heap) : heap :=
  match atlases h !! i with
  | None => h
  | Some a =>
      let s := (m (Atlas.St a (hdisk h))).2 in
      Heap (<[i := Atlas.self s]> (atlases h)) (Atlas.dsk s)
  end.

Definition step (h : heap) (o : op) : heap :=
  match o with
  | Construct elements path =>
      Heap (atlases h ++ [Atlas.init elements path]) (hdisk h)
  | CallGroup i => call_method Atlas.group i h
  | CallSave i => call_method Atlas.save i h
  | CallLoad i => call_method Atlas.load i h
  end.

Definition exec (ops : list op) (h : heap) : heap := foldl step h ops.

(** ** Observations used in the statements *)

Section Observations.
Context `{Dlib}.

Definition is_factory_call (key : string) (e : event) : bool :=
  match e with
  | EvFactory k => bool_decide (k = key)
  | _ => false
  end.

(** How many times the recipe registered under [key] has been applied. *)
Definition factory_calls (key : string) (tr : list event) : nat :=
  length (filter (λ e, is_factory_call key e) tr).

Definition is_model_call (e : event) : bool :=
  match e with
  | EvFactory _ => false
  | _ => true
  end.

(** The detector, predictor and encoder invocations of a trace. *)
Definition model_calls (tr : list event) : list event :=
  filter (λ e, is_model_call e) tr.

(** The fewest points a class can be built from: the largest index its
    [_make_dict] reads, plus one. *)
Definition min_points (c : Shape.cls) : nat :=
  match c with
  | Shape.Shape => 0
  | Shape.Shape5p => 5
  | Shape.Shape68p => 61
  end.

(** Binding [self.model] at the end of a shape's [__init__]. *)
Definition bind_model (c : Shape.cls) : M state (option Obj) :=
  match Shape.predictor_key c with
  | None => ret None
  | Some key => let* m := LazyStore.get key in ret (Some m)
  end.

(** The pairs [(p.x, p.y)] of a detection. *)
Definition coords (face : full_object_detection) : list point :=
  (λ p, (x p, y p)) <$> parts face.

(** The rectangle of a location, when [_tuple_to_rect] returns one, and
    the rectangles of the locations of a list. *)
Definition as_rect (loc : location) : option rectangle :=
  match _tuple_to_rect loc with
  | Ok r => Some r
  | Raise _ => None
  end.

Definition rects_of (L : list location) : list rectangle := omap as_rect L.

(** The predictor [m] returns [face] at the rectangle of [loc]. *)
Definition predicts (m : Obj) (img : Image) (loc : location)
    (face : full_object_detection) : Prop :=
  ∃ r, _tuple_to_rect loc = Ok r ∧ call_predictor m img r = Ok face.

(** An external call that returns. *)
Definition returns {A} (o : outcome A) : Prop := ∃ a, o = Ok a.

(** An action only ever appends to the trace. *)
Definition grows {A} (m : M state A) : Prop :=
  ∀ st, ∃ ext, trace (m st).2 = trace st ++ ext.

(** Programs over the registry. *)
Inductive store_op :=
| OpRegister (key : string) (initer : callable) (args : list string)
    (kwargs : list (string * string))
| OpGet (key : string).

Definition store_step (st : state) (o : store_op) : state :=
  match o with
  | OpRegister key initer args kwargs =>
      (LazyStore.register key initer args kwargs st).2
  | OpGet key => (LazyStore.get key st).2
  end.

Definition registers (key : string) (o : store_op) : bool :=
  match o with
  | OpRegister k _ _ _ => bool_decide (k = key)
  | OpGet _ => false
  end.

(** What indexing past the end raises. *)
Definition index_error : exn := Exn IndexError "list index out of range".

(** The error [get] raises for a key it cannot build. *)
Definition unregistered : exn := Exn KeyError "unregistered lazy key.".

(** The four ways a [get] can go. *)
Inductive get_spec (k : string) (st : state) : outcome Obj * state → Prop :=
| GetCached (v : Obj) :
    dict (lazy_vars st) !! k = Some v → get_spec k st (Ok v, st)
| GetAbsent :
    dict (lazy_vars st) !! k = None → reg (lazy_vars st) !! k = None →
    get_spec k st (Raise unregistered, st)
| GetBuilt (r : recipe) (v : Obj) (w' : World) :
    dict (lazy_vars st) !! k = None → reg (lazy_vars st) !! k = Some r →
    initer r (args r) (kwargs r) (world st) = (Ok v, w') →
    get_spec k st
      (Ok v, State (LazyStoreObj (<[k := v]> (dict (lazy_vars st)))
                                 (reg (lazy_vars st)))
                   w' (trace st ++ [EvFactory k]))
| GetFailed (r : recipe) (e : exn) (w' : World) :
    dict (lazy_vars st) !! k = None → reg (lazy_vars st) !! k = Some r →
    initer r (args r) (kwargs r) (world st) = (Raise e, w') →
    get_spec k st
      (Raise (if isinstance e KeyError then unregistered else e),
       State (lazy_vars st) w' (trace st ++ [EvFactory k])).

End Observations.

(** Every readable pickle on the disk was written by [save] from an Atlas
    on which the invariant held. *)
Definition snapshot (a : gmap string pyval) : file :=
  Pickled (PDict (map_to_list a)).

Definition disk_ok (d : disk) : Prop :=
  ∀ p v, files d !! p = Some (Pickled v) →
    ∃ a, v = PDict (map_to_list a) ∧ Atlas.invariant a = true.

(** The invariant on every object of the heap, and a disk that holds no
    foreign pickle. *)
Definition heap_ok (h : heap) : Prop :=
  Forall (λ a, Atlas.invariant a = true) (atlases h) ∧ disk_ok (hdisk h).

(** [None], booleans and numbers: values that cannot be iterated over;
    [dict.update] rejects them with a [TypeError]. *)
Definition not_iterable (v : pyval) : bool :=
  match v with
  | PNone | PBool _ | PInt _ | PFloat _ _ => true
  | PStr _ | PList _ | PDict _ | PInstance _ _ => false
  end.

(** ** A small instance of the libraries, for concrete runs *)

(** Worlds count the objects allocated so far; every constructor returns
    the next fresh reference. *)
Definition fresh : nat → outcome nat * nat := λ w, (Ok w, S w).

Definition toy_parts (n : nat) (r : rectangle) : list dpoint :=
  (λ i, DPoint (rect_left r + i) (rect_top r + i)) <$> range n.

(** Three rectangles. *)
Definition toy_rect : rectangle := Rectangle 0 0 9 9 I.
Definition toy_rect2 : rectangle := Rectangle 5 5 20 20 I.
Definition bad_rect : rectangle := Rectangle (-1) 0 5 5 I.

Definition toy : Dlib := {|
  World := nat;
  Obj := nat;
  Image := unit;
  Descriptor := list Z;
  dlib_version := "19.24.0";
  resource_filename := λ _ name, name;
  get_frontal_face_detector := fresh;
  face_recognition_model_v1 := λ _, fresh;
  shape_predictor := λ _, fresh;
  open_pickle_load := λ _, fresh;
  call_detector := λ _ _ _, Ok [toy_rect];
  call_predictor := λ _ _ r, Ok (FullObjectDetection r (toy_parts 68 r));
  compute_face_descriptor := λ _ _ s _, Ok [rect_left (rect s)];
|}.

Definition toy_atlas : gmap string pyval :=
  Atlas.init (PList [PInt 1; PInt 2]) (PStr "atlas.pkl").

Definition empty_disk : disk := Disk ∅ ∅.

(** A disk whose file at the Atlas's path holds the pickle of the
    integer 5, and one whose file there is cut short. *)
Definition foreign_disk : disk := Disk {["atlas.pkl" := Pickled (PInt 5)]} ∅.

Definition torn_disk : disk :=
  Disk {["atlas.pkl" :=
           Unreadable (Exn UnpicklingError "pickle data was truncated")]} ∅.

(** The recipe the module registers for the 68-point predictor. *)
Definition recipe_68p : @recipe toy :=
  @Recipe toy (@unary toy (@shape_predictor toy)) [@_path_shape_68p toy] [].

Definition toy_img : @Image toy := tt.

(** The module just imported, nothing allocated yet. *)
Definition toy_state : @state toy := @imported toy 0%nat.

(** A registry program that never registers "gender_model_v2". *)
Definition toy_ops : list (@store_op toy) :=
  [ OpGet "gender_model_v2";
    OpRegister "spare" (@nullary toy fresh) [] [];
    OpGet "spare";
    OpGet "gender_model_v2" ].

(** Two face locations. *)
Definition toy_locations : list location := [(0, 0, 9, 9); (5, 5, 20, 20)].

(** An Atlas program: build, save, build another on the same path, load
    into it, group it, reload the first. *)
Definition toy_program : list op :=
  [ Construct (PList [PInt 1; PInt 2]) (PStr "atlas.pkl");
    CallSave 0;
    Construct (PList []) (PStr "atlas.pkl");
    CallLoad 1;
    CallGroup 1;
    CallLoad 0 ].

(** 61 points: enough for every index [Shape68p._make_dict] reads. *)
Definition range61 : list point := (λ i, (i, i)) <$> range 61.

(** ** Drawing *)

(** A colour [(b, g, r)]. *)
Definition colour : Type := Z * Z * Z.

(** The two OpenCV calls the shapes make on an image. *)
Inductive cv2_call :=
| Cv2Circle (center : point) (radius : Z) (color : colour) (thickness : Z)
| Cv2Line (pt1 pt2 : point) (color : colour) (thickness : Z).

(** OpenCV checks the arguments of a drawing call before it draws, and
    raises when it refuses them (a thickness that is not positive, a
    coordinate that is no C [int], an array it cannot draw on).  Its
    verdict is a parameter: [None] when the call draws, the exception
    otherwise.  It depends on the array given ([Mat]: its type and shape)
    and on the arguments, not on what has been drawn on the array. *)
Class Cv2 := {
  Mat : Type;
  line_error : Mat → point → point → colour → Z → option exn;
  circle_error : Mat → point → Z → colour → Z → option exn;
}.

Module Draw.
Section Methods.
Context `{Dlib} `{Cv2}.

(** Drawing mutates the image: the state is the array given and the list
    of calls that have drawn on it so far. *)
Record canvas := Canvas { mat : Mat; drawn : list cv2_call }.

(** [cv2.circle(img, center, radius, color, thickness=thickness)] *)
Definition circle (center : point) (radius : Z) (color : colour)
    (thickness : Z) : M canvas unit :=
  λ img,
    match circle_error (mat img) center radius color thickness with
    | Some e => (Raise e, img)
    | None =>
        (Ok tt,
         Canvas (mat img) (drawn img ++ [Cv2Circle center radius color thickness]))
    end.

(** [cv2.line(img, pt1, pt2, color, thickness=thickness)] *)
Definition line (pt1 pt2 : point) (color : colour) (thickness : Z)
    : M canvas unit :=
  λ img,
    match line_error (mat img) pt1 pt2 color thickness with
    | Some e => (Raise e, img)
    | None =>
        (Ok tt,
         Canvas (mat img) (drawn img ++ [Cv2Line pt1 pt2 color thickness]))
    end.

(** [l[:-1]] *)
Definition all_but_last {A} (l : list A) : list A := take (length l - 1) l.

(** [zip(l[:-1], l[1:])]: each element with its successor. *)
Definition consecutive {A} (l : list A) : list (A * A) :=
  zip (all_but_last l) (drop 1 l).

(** [d[key]] *)
Definition getitem (d : gmap string (list point)) (key : string)
    : M canvas (list point) :=
  match d !! key with
  | Some l => ret l
  | None => raise KeyError key
  end.

(** [for point1, point2 in pairs: cv2.line(img, point1, point2, color,
    thickness=thick)] *)
Definition draw_pairs (pairs : list (point * point)) (color : colour)
    (thick : Z) : M canvas unit :=
  run for_each (λ pr : point * point, line pr.1 pr.2 color thick) pairs in
  ret tt.

(** The keys of a shape's dictionary in the order iteration visits them.
    A dictionary is iterated in insertion order; for a dictionary as
    [_make_dict] built it, that is the order of the literal. *)
Definition literal_keys (c : Shape.cls) : list string :=
  match c with
  | Shape.Shape => []
  | Shape.Shape5p => ["eye_left"; "eye_right"; "nose"]
  | Shape.Shape68p =>
      ["jawline"; "eyebrow_right"; "eyebrow_left"; "nose_bridge"; "nose_tip";
       "eye_right"; "eye_left"; "lips_top"; "lips_bottom"]
  end.

Definition keys (s : Shape.t) : list string :=
  filter (λ key, is_Some (Shape.dict s !! key)) (literal_keys (Shape.class s)).

(** The body of the loop [for key in shape] of [Shape68p._draw_lines]. *)
Definition draw_region (shape : gmap string (list point)) (color : colour)
    (thick : Z) (key : string) : M canvas unit :=
  let* region := getitem shape key in
  let pairs := consecutive region in
  let color_ := if String.eqb key "right_eye" then (0, 0, 255) else color in
  draw_pairs pairs color_ thick.

(** [Shape._draw_points], which the subclasses inherit. *)
Definition _draw_points (s : Shape.t) (color : colour) (thick : Z)
    : M canvas unit :=
  run for_each (λ point, circle point thick color thick) (Shape.points s) in
  ret tt.

(** [_draw_lines] of the base class ([pass]), of [Shape5p] and of
    [Shape68p]. *)
Definition _draw_lines (s : Shape.t) (color : colour) (thick : Z)
    : M canvas unit :=
  match Shape.class s with
  | Shape.Shape => ret tt
  | Shape.Shape5p =>
      let d := Shape.dict s in
      let* eye_left := getitem d "eye_left" in
      let* nose := getitem d "nose" in
      let* eye_right := getitem d "eye_right" in
      let points := eye_left ++ nose ++ reverse eye_right in
      let pairs := consecutive points in
      draw_pairs pairs color thick
  | Shape.Shape68p =>
      let shape := Shape.dict s in
      run for_each (draw_region shape color thick) (keys s) in
      ret tt
  end.

(** The body of [_draw_numbers] is [pass] in every class. *)
Definition _draw_numbers (s : Shape.t) (color : colour) (thick : Z)
    : M canvas unit := ret tt.

End Methods.
End Draw.

(** ** Further observations *)

Section Frames.
Context `{Dlib} `{Cv2}.

(** An action registers nothing and leaves the cache of every key outside
    [ks] as it was. *)
Definition touches_only {A} (ks : list string) (m : M state A) : Prop :=
  ∀ st, reg (lazy_vars (m st).2) = reg (lazy_vars st) ∧
        ∀ j, j ∉ ks → dict (lazy_vars (m st).2) !! j = dict (lazy_vars st) !! j.

(** The registry keys [landmark] and [encode] may bind. *)
Definition predictor_keys (c : Shape.cls) : list string :=
  match Shape.predictor_key c with
  | None => []
  | Some key => [key]
  end.

(** The recipe applications of a trace. *)
Definition factory_events (tr : list event) : list event :=
  filter (λ e, negb (is_model_call e)) tr.

(** With [key] materialized, an action keeps it so and applies no
    recipe. *)
Definition warm {A} (key : string) (m : M state A) : Prop :=
  ∀ st, is_Some (dict (lazy_vars st) !! key) →
        is_Some (dict (lazy_vars (m st).2) !! key) ∧
        factory_events (trace (m st).2) = factory_events (trace st).


(** The [cv2.line] calls of an open polyline through [pts]. *)
Definition segments (color : colour) (thick : Z) (pts : list point)
    : list cv2_call :=
  (λ pr, Cv2Line pr.1 pr.2 color thick) <$> Draw.consecutive pts.

(** The regions of a shape, in the order iteration over its dictionary
    visits them. *)
Definition regions (s : Shape.t) : list (list point) :=
  (λ key, default [] (Shape.dict s !! key)) <$> Draw.keys s.

(** [cv2.line] draws every one of these segments on the array [m]. *)
Definition accepts_lines (m : Mat) (color : colour) (thick : Z)
    (pairs : list (point * point)) : Prop :=
  Forall (λ pr, line_error m pr.1 pr.2 color thick = None) pairs.

(** A run that was to draw the calls [all] onto the canvas [img]: it drew
    the first of them and nothing else; all of them if it returned; and if
    it raised, the exception is one [cv2.line] raised for this colour and
    thickness. *)
Definition draws {A} (img : Draw.canvas) (color : colour) (thick : Z)
    (all : list cv2_call) (r : outcome A * Draw.canvas) : Prop :=
  ∃ calls,
    r.2 = Draw.Canvas (Draw.mat img) (Draw.drawn img ++ calls) ∧
    calls `prefix_of` all ∧
    match r.1 with
    | Ok _ => calls = all
    | Raise e => ∃ a b, line_error (Draw.mat img) a b color thick = Some e
    end.

End Frames.

(** An Atlas method that never writes to the disk. *)
Definition keeps_disk {A} (m : M Atlas.st A) : Prop :=
  ∀ s, Atlas.dsk (m s).2 = Atlas.dsk s.

(** ** More concrete data *)

(** A registry whose encoder file is missing: the constructor raises. *)
Definition broken_state : @state toy :=
  @State toy
    (@LazyStoreObj toy ∅
       {["face_encoder" :=
           @Recipe toy
             (λ _ _ w, (Raise (Exn RuntimeError "Unable to open file"), w))
             ["missing.dat"] []]})
    0%nat [].

(** The toy module after the 68-point predictor has been requested. *)
Definition warm_state : @state toy :=
  (@LazyStore.get toy "shape_predictor_68p" toy_state).2.

(** Re-registering the predictor and requesting another model. *)
Definition later_ops : list (@store_op toy) :=
  [ OpRegister "shape_predictor_68p" (@nullary toy fresh) [] [];
    OpGet "face_encoder";
    OpGet "shape_predictor_68p" ].

(** A constructor without arguments. *)
Definition toy_nullary : @callable toy := @nullary toy fresh.

(** A registry just built by [_LazyStore()]. *)
Definition fresh_store : @state toy :=
  @State toy (@LazyStore.init toy None None) 0%nat [].

(** The shape [cls(range68)] as built right after import. *)
Definition toy_shape (c : Shape.cls) : @Shape.t toy :=
  match (@Shape.init toy c range68 toy_state).1 with
  | Ok s => s
  | Raise _ => @Shape.Make toy [] ∅ None c
  end.

(** What the toy predictor returns at a location, and the toy encoder on
    that. *)
(** An OpenCV that draws a line exactly when the thickness is between 1
    and 32767, and a circle when the radius is not negative and the
    thickness at most 32767. *)
Definition toy_cv2 : Cv2 := {|
  Mat := unit;
  line_error := λ _ _ _ _ thickness,
    if (0 <? thickness)%Z && (thickness <=? 32767)%Z then None
    else Some (Exn Cv2Error "0 < thickness && thickness <= MAX_THICKNESS");
  circle_error := λ _ _ radius _ thickness,
    if (0 <=? radius)%Z && (thickness <=? 32767)%Z then None
    else Some (Exn Cv2Error "radius >= 0 && thickness <= MAX_THICKNESS");
|}.

Definition blank : @Draw.canvas toy_cv2 := @Draw.Canvas toy_cv2 tt [].

Definition toy_face (r : rectangle) : full_object_detection :=
  FullObjectDetection r (toy_parts 68 r).

Definition toy_descriptor (face : full_object_detection) : list Z :=
  [rect_left (rect face)].

(** The toy libraries with a predictor that rejects rectangles whose left
    edge is negative. *)
Definition picky : Dlib := {|
  World := nat;
  Obj := nat;
  Image := unit;
  Descriptor := list Z;
  dlib_version := "19.8.1";
  resource_filename := λ _ name, name;
  get_frontal_face_detector := fresh;
  face_recognition_model_v1 := λ _, fresh;
  shape_predictor := λ _, fresh;
  open_pickle_load := λ _, fresh;
  call_detector := λ _ _ _, Ok [toy_rect];
  call_predictor := λ _ _ r,
    if decide (rect_left r < 0)%Z
    then Raise (Exn RuntimeError "rectangle outside the image")
    else Ok (FullObjectDetection r (toy_parts 68 r));
  compute_face_descriptor := λ _ _ s _, Ok [rect_left (rect s)];
|}.

Definition picky_state : @state picky := @imported picky 0%nat.
Definition picky_img : @Image picky := tt.

(** A disk whose file at the Atlas's path holds a dictionary that no
    [save] wrote. *)
Definition odd_items : list (string * pyval) :=
  [("path", PStr "elsewhere.pkl"); ("grouped", PBool true)].

Definition odd_disk : disk := Disk {["atlas.pkl" := Pickled (PDict odd_items)]} ∅.

(** A disk whose file at the Atlas's path holds a dictionary in which
    [grouped] is [True] while [groups] is [None], and the program that
    builds an Atlas on that path and loads it. *)
Definition stale_items : list (string * pyval) :=
  [("path", PStr "atlas.pkl"); ("grouped", PBool true); ("groups", PNone)].

Definition stale_disk : disk :=
  Disk {["atlas.pkl" := Pickled (PDict stale_items)]} ∅.

Definition stale_program : list op :=
  [ Construct (PList []) (PStr "atlas.pkl"); CallLoad 0 ].

(** The value a run returned, or [dflt] if it raised. *)
Definition result {A S} (dflt : A) (r : outcome A * S) : A :=
  match r.1 with
  | Ok a => a
  | Raise _ => dflt
  end.

(** A location the picky predictor rejects, and one that is no rectangle
    at all. *)
Definition bad_location : location := (-1, 0, 5, 5).
Definition huge_location : location := (2 ^ 63, 0, 1, 1).

(** * Properties *)

(** ** The registry *)

Section Registry.
Context `{Dlib}.
Implicit Types (st : state) (k key : string) (r : recipe) (v : Obj).

(** A cached key is answered from [self.dict]; nothing else happens. *)
Lemma get_cached st k v :
  dict (lazy_vars st) !! k = Some v → LazyStore.get k st = (Ok v, st).
Proof.
  intros Hd. unfold LazyStore.get, try_except, LazyStore.dict_getitem.
  by rewrite Hd.
Qed.

(** A key in neither table: the lookup in [self.reg] raises, the handler
    re-raises, and the state is as before. *)
Lemma get_absent st k :
  dict (lazy_vars st) !! k = None → reg (lazy_vars st) !! k = None →
  LazyStore.get k st = (Raise unregistered, st).
Proof.
  intros Hd Hr.
  unfold LazyStore.get, try_except, bind, LazyStore.dict_getitem,
    LazyStore.reg_getitem.
  by rewrite Hd, Hr.
Qed.

(** First request of a registered key whose constructor returns. *)
Lemma get_first_ok st k r v w' :
  dict (lazy_vars st) !! k = None → reg (lazy_vars st) !! k = Some r →
  initer r (args r) (kwargs r) (world st) = (Ok v, w') →
  LazyStore.get k st =
    (Ok v, State (LazyStoreObj (<[k := v]> (dict (lazy_vars st)))
                               (reg (lazy_vars st)))
                 w' (trace st ++ [EvFactory k])).
Proof.
  intros Hd Hr Hf.
  unfold LazyStore.get, try_except, bind, LazyStore.dict_getitem,
    LazyStore.reg_getitem, LazyStore.call, LazyStore.dict_setitem, ret.
  rewrite Hd. simpl. rewrite Hr. simpl. by rewrite Hf.
Qed.

(** First request of a registered key whose constructor raises: nothing is
    cached, and a [KeyError] from the constructor is reported as an
    unregistered key. *)
Lemma get_first_raise st k r e w' :
  dict (lazy_vars st) !! k = None → reg (lazy_vars st) !! k = Some r →
  initer r (args r) (kwargs r) (world st) = (Raise e, w') →
  LazyStore.get k st =
    (Raise (if isinstance e KeyError then unregistered else e),
     State (lazy_vars st) w' (trace st ++ [EvFactory k])).
Proof.
  intros Hd Hr Hf.
  unfold LazyStore.get, try_except, bind, LazyStore.dict_getitem,
    LazyStore.reg_getitem, LazyStore.call, raise.
  rewrite Hd. simpl. rewrite Hr. simpl. rewrite Hf.
  by destruct (isinstance e KeyError).
Qed.

Lemma get_cases k st : get_spec k st (LazyStore.get k st).
Proof.
  destruct (dict (lazy_vars st) !! k) as [v|] eqn:Hd.
  { rewrite (get_cached _ _ _ Hd). by constructor. }
  destruct (reg (lazy_vars st) !! k) as [r|] eqn:Hr.
  2:{ rewrite (get_absent _ _ Hd Hr). by constructor. }
  destruct (initer r (args r) (kwargs r) (world st)) as [[v|e] w'] eqn:Hf.
  - rewrite (get_first_ok _ _ _ _ _ Hd Hr Hf). by econstructor.
  - rewrite (get_first_raise _ _ _ _ _ Hd Hr Hf). by econstructor.
Qed.

Lemma factory_calls_app k (tr1 tr2 : list event) :
  factory_calls k (tr1 ++ tr2) = (factory_calls k tr1 + factory_calls k tr2)%nat.
Proof. unfold factory_calls. by rewrite filter_app, length_app. Qed.

Lemma factory_calls_self k : factory_calls k [EvFactory k] = 1%nat.
Proof.
  unfold factory_calls. rewrite filter_cons_True; [done|].
  simpl. by rewrite bool_decide_eq_true_2.
Qed.

(** [get] never registers, and caches nothing but the key asked for, and
    that only when it is registered. *)
Lemma get_reg k st : reg (lazy_vars (LazyStore.get k st).2) = reg (lazy_vars st).
Proof. by destruct (get_cases k st). Qed.

Lemma get_dict_other k j st :
  j ≠ k →
  dict (lazy_vars (LazyStore.get k st).2) !! j = dict (lazy_vars st) !! j.
Proof.
  intros Hne. destruct (get_cases k st); simpl; try done.
  by rewrite lookup_insert_ne.
Qed.

Lemma get_dict_unregistered k st :
  reg (lazy_vars st) !! k = None →
  dict (lazy_vars (LazyStore.get k st).2) !! k = dict (lazy_vars st) !! k.
Proof. intros Hr. destruct (get_cases k st); simpl; congruence. Qed.

(** A key that is in neither table stays so under every operation that
    does not register it. *)
Lemma absent_step k st (o : store_op) :
  registers k o = false →
  dict (lazy_vars st) !! k = None ∧ reg (lazy_vars st) !! k = None →
  dict (lazy_vars (store_step st o)) !! k = None ∧
  reg (lazy_vars (store_step st o)) !! k = None.
Proof.
  intros Ho [Hd Hr]. destruct o as [k' i a kw | k']; simpl in *.
  - apply bool_decide_eq_false in Ho. split; [done|].
    by rewrite lookup_insert_ne.
  - rewrite get_reg. split; [|done].
    destruct (decide (k = k')) as [->|Hne].
    + by rewrite get_dict_unregistered.
    + by rewrite get_dict_other.
Qed.

Lemma absent_steps k (ops : list store_op) st :
  Forall (λ o, registers k o = false) ops →
  dict (lazy_vars st) !! k = None ∧ reg (lazy_vars st) !! k = None →
  dict (lazy_vars (foldl store_step st ops)) !! k = None ∧
  reg (lazy_vars (foldl store_step st ops)) !! k = None.
Proof.
  intros Hops. revert st.
  induction Hops as [|o ops Ho _ IH]; intros st Hst; [done|].
  simpl. apply IH. by apply absent_step.
Qed.

(** C2. A registered key that is not yet materialized and whose constructor
    returns [v]: two successive [get]s both return that same object [v], the
    second leaves the state as the first left it, and over both calls the
    constructor is applied exactly once; [v] is what the cache then holds. *)
Theorem get_twice_same_instance st k r v w' :
  dict (lazy_vars st) !! k = None →
  reg (lazy_vars st) !! k = Some r →
  initer r (args r) (kwargs r) (world st) = (Ok v, w') →
  ∃ st1,
    LazyStore.get k st = (Ok v, st1) ∧
    LazyStore.get k st1 = (Ok v, st1) ∧
    trace st1 = trace st ++ [EvFactory k] ∧
    factory_calls k (trace st1) = S (factory_calls k (trace st)) ∧
    dict (lazy_vars st1) !! k = Some v.
Proof.
  intros Hd Hr Hf. eexists. split; [by apply (get_first_ok st k r v w')|].
  assert (<[k:=v]> (dict (lazy_vars st)) !! k = Some v) as Hk
    by apply lookup_insert_eq.
  split; [by apply get_cached|]. split; [done|]. split; [|done].
  simpl. rewrite factory_calls_app, factory_calls_self. lia.
Qed.

(** C6. In a registry built by [_LazyStore()] and used by any sequence of
    [register] and [get] calls none of which registers [k], [get k] raises
    the unregistered-key [KeyError], a [LookupError], and leaves the whole
    state as it was, so that nothing is cached for [k] and the next call
    fails in the same way. *)
Theorem get_never_registered_fails (w : World) (ops : list store_op) k :
  Forall (λ o, registers k o = false) ops →
  let st := foldl store_step (State (LazyStore.init None None) w []) ops in
  LazyStore.get k st = (Raise unregistered, st) ∧
  isinstance unregistered LookupError = true ∧
  dict (lazy_vars st) !! k = None.
Proof.
  intros Hops st.
  destruct (absent_steps k ops (State (LazyStore.init None None) w []) Hops)
    as [Hd Hr]; [done|].
  split; [by apply get_absent|]. split; [reflexivity|done].
Qed.

End Registry.

(** ** Shapes *)

Section Shapes.
Context `{Dlib}.
Implicit Types (st : state) (P : list point) (c : Shape.cls).

(** [__init__] is [_make_dict] followed by the binding of the model. *)
Lemma init_unfold c P st :
  Shape.init c P st =
  (let* d := Shape._make_dict c P in
   let* m := bind_model c in
   ret (Shape.Make P d m c)) st.
Proof.
  unfold Shape.init, bind_model, bind.
  destruct (Shape._make_dict c P st) as [[d|e] st1]; [|done].
  destruct (Shape.predictor_key c); [|done].
  unfold ret. by destruct (LazyStore.get s st1) as [[m|e] st2].
Qed.

Lemma getitem_lt {A} (p : list A) (i : nat) :
  (i < length p)%nat → ∃ a, p !! i = Some a ∧ getitem p i = Ok a.
Proof.
  intros Hi. destruct (lookup_lt_is_Some_2 p i Hi) as [a Ha].
  exists a. unfold getitem. by rewrite Ha.
Qed.

Lemma getitem_ge {A} (p : list A) (i : nat) :
  (length p ≤ i)%nat → getitem p i = Raise index_error.
Proof. intros Hi. unfold getitem. by rewrite lookup_ge_None_2. Qed.

(** Too few points: the first index out of range raises, before anything
    is looked up in the registry. *)
Lemma make_dict_short c P st :
  (length P < min_points c)%nat →
  Shape._make_dict c P st = (Raise index_error, st).
Proof.
  destruct c; simpl; intros Hlen; [lia| |].
  - unfold bind, lift. by rewrite getitem_ge by lia.
  - unfold bind, lift.
    destruct (decide (length P ≤ 48)%nat) as [Hle|Hgt].
    + by rewrite getitem_ge by lia.
    + destruct (getitem_lt P 48) as (a & _ & ->); [lia|].
      by rewrite getitem_ge by lia.
Qed.

(** Enough points: a dictionary is built and the state is not touched. *)
Lemma make_dict_long c P :
  (min_points c ≤ length P)%nat →
  ∃ d, ∀ st', Shape._make_dict c P st' = (Ok d, st').
Proof.
  destruct c; simpl; intros Hlen.
  - by eexists.
  - destruct (getitem_lt P 4) as (a & _ & Ha); [lia|].
    eexists. intros st'. unfold bind, lift. by rewrite Ha.
  - destruct (getitem_lt P 48) as (a & _ & Ha); [lia|].
    destruct (getitem_lt P 60) as (b & _ & Hb); [lia|].
    eexists. intros st'. unfold bind, lift. by rewrite Ha, Hb.
Qed.

(** With enough points, [__init__] is the binding of the model around a
    fixed dictionary. *)
Lemma init_long c P :
  (min_points c ≤ length P)%nat →
  ∃ d, ∀ st, Shape.init c P st =
             (let* m := bind_model c in ret (Shape.Make P d m c)) st.
Proof.
  intros Hlen. destruct (make_dict_long c P) as [d Hd]; [done|].
  exists d. intros st. rewrite init_unfold. unfold bind at 1. by rewrite Hd.
Qed.

(** C4, as the code has it.  A shape class accepts every list that reaches
    the largest index its [_make_dict] reads: at least 5 points for
    [Shape5p], at least 61 for [Shape68p].  A shorter list raises
    [IndexError] and leaves the registry alone; a list that is long enough
    gives, once the predictor is bound, a shape holding exactly the points
    given. *)
Theorem shape_init_by_length c P st :
  ((length P < min_points c)%nat ∧
   Shape.init c P st = (Raise index_error, st)) ∨
  ((min_points c ≤ length P)%nat ∧
   ∃ d, Shape.init c P st =
        (let* m := bind_model c in ret (Shape.Make P d m c)) st).
Proof.
  destruct (decide (length P < min_points c)%nat) as [Hlt|Hge].
  - left. split; [done|]. rewrite init_unfold. unfold bind.
    by rewrite make_dict_short.
  - right. split; [lia|].
    destruct (init_long c P) as [d Hd]; [lia|]. by exists d.
Qed.

(** C1. For 68 points [P], [Shape68p(P)] is, once the predictor is bound,
    the shape over [P] whose dictionary has P[0..16] under "jawline",
    P[27..30] under "nose_bridge", and under "lips_top" the points at
    indices 48 to 54 followed by those at 64, 63, 62, 61, 60. *)
Theorem shape68_region_partition P st :
  length P = 68%nat →
  ∃ d,
    Shape.init Shape.Shape68p P st =
      (let* m := bind_model Shape.Shape68p in
       ret (Shape.Make P d m Shape.Shape68p)) st ∧
    d !! "jawline" = Some (take 17 P) ∧
    d !! "nose_bridge" = Some (take 4 (drop 27 P)) ∧
    ∃ top, d !! "lips_top" = Some top ∧
      Some <$> top =
      (λ i, P !! i) <$> [48; 49; 50; 51; 52; 53; 54; 64; 63; 62; 61; 60]%nat.
Proof.
  intros Hlen.
  do 68 (destruct P as [|? P]; [discriminate Hlen|]).
  destruct P; [|discriminate Hlen]. clear Hlen.
  eexists. split; [|split; [|split]].
  - rewrite init_unfold. unfold bind at 1. simpl. reflexivity.
  - reflexivity.
  - reflexivity.
  - eexists. split; reflexivity.
Qed.

End Shapes.

(** ** The pipeline *)

Section PipelineFacts.
Context `{Dlib}.
Implicit Types (st : state) (c : Shape.cls) (img : Image) (m : Obj).

Lemma get_ok_cached (k : string) st m st' :
  LazyStore.get k st = (Ok m, st') → dict (lazy_vars st') !! k = Some m.
Proof.
  intros Hg. destruct (get_cases k st); simplify_eq; simpl; [done|].
  apply lookup_insert_eq.
Qed.

(** What is cached stays cached. *)
Lemma get_keeps (k j : string) st m :
  dict (lazy_vars st) !! j = Some m →
  dict (lazy_vars (LazyStore.get k st).2) !! j = Some m.
Proof.
  intros Hj. destruct (get_cases k st); simpl; try done.
  rewrite lookup_insert_ne; [done|]. congruence.
Qed.

(** [get] adds nothing to the trace but, possibly, the application of the
    recipe. *)
Lemma get_trace (k : string) st :
  trace (LazyStore.get k st).2 = trace st ∨
  trace (LazyStore.get k st).2 = trace st ++ [EvFactory k].
Proof. destruct (get_cases k st); simpl; auto. Qed.

Lemma model_calls_app (tr1 tr2 : list event) :
  model_calls (tr1 ++ tr2) = model_calls tr1 ++ model_calls tr2.
Proof. unfold model_calls. by rewrite filter_app. Qed.

Lemma get_model_calls (k : string) st :
  model_calls (trace (LazyStore.get k st).2) = model_calls (trace st).
Proof.
  destruct (get_trace k st) as [-> | ->]; [done|].
  rewrite model_calls_app. simpl. by rewrite app_nil_r.
Qed.

Lemma bind_model_model_calls c st :
  model_calls (trace (bind_model c st).2) = model_calls (trace st).
Proof.
  unfold bind_model. destruct (Shape.predictor_key c) as [key|]; [|done].
  unfold bind. pose proof (get_model_calls key st) as Hg.
  by destruct (LazyStore.get key st) as [[m|e] st1].
Qed.

Lemma range68_long c : (min_points c ≤ length range68)%nat.
Proof. destruct c; simpl; lia. Qed.

(** The model binding of the shape that [landmark] and [encode] build to
    find their predictor. *)
Lemma shaper_unfold c :
  ∃ d, ∀ st, Shape.init c range68 st =
             (let* m := bind_model c in ret (Shape.Make range68 d m c)) st.
Proof. apply init_long, range68_long. Qed.

Lemma landmark_empty img c (u : Z) st :
  landmark img (Some []) c u st = (run bind_model c in ret []) st.
Proof.
  destruct (shaper_unfold c) as [d Hd].
  unfold landmark. unfold bind at 1. simpl. unfold bind at 1.
  rewrite Hd. unfold bind.
  by destruct (bind_model c st) as [[m|e] st1].
Qed.

Lemma encode_empty img c (j : Z) st :
  encode img (Some []) c j st =
  (run bind_model c in run LazyStore.get "face_encoder" in ret []) st.
Proof.
  destruct (shaper_unfold c) as [d Hd].
  unfold encode. unfold bind at 1. simpl. unfold bind at 1.
  rewrite Hd. unfold bind.
  destruct (bind_model c st) as [[m|e] st1]; [|done]. simpl.
  by destruct (LazyStore.get "face_encoder" st1) as [[enc|e] st2].
Qed.

(** C3, as the code has it.  With [locations=[]], [landmark] and [encode]
    do nothing but bind their models and return the empty list: [landmark]
    binds the predictor of the chosen class, [encode] that and the face
    encoder, each through [get], which materializes the entry when it is
    not yet cached.  No detector, predictor or encoder is invoked.  Where
    the call returns and the class has a predictor key, that entry (and,
    for [encode], the encoder's) is materialized afterwards. *)
Theorem empty_locations_bind_models img c (u j : Z) st :
  landmark img (Some []) c u st = (run bind_model c in ret []) st ∧
  encode img (Some []) c j st =
    (run bind_model c in run LazyStore.get "face_encoder" in ret []) st ∧
  model_calls (trace (landmark img (Some []) c u st).2) = model_calls (trace st) ∧
  model_calls (trace (encode img (Some []) c j st).2) = model_calls (trace st) ∧
  (∀ key shapes st',
     Shape.predictor_key c = Some key →
     landmark img (Some []) c u st = (Ok shapes, st') →
     shapes = [] ∧ is_Some (dict (lazy_vars st') !! key)) ∧
  (∀ key encodings st',
     Shape.predictor_key c = Some key →
     encode img (Some []) c j st = (Ok encodings, st') →
     encodings = [] ∧ is_Some (dict (lazy_vars st') !! key) ∧
     is_Some (dict (lazy_vars st') !! "face_encoder")).
Proof.
  split; [apply landmark_empty|]. split; [apply encode_empty|].
  split; [|split; [|split]].
  - rewrite landmark_empty. unfold bind.
    pose proof (bind_model_model_calls c st) as Hb.
    by destruct (bind_model c st) as [[m|e] st1].
  - rewrite encode_empty. unfold bind.
    pose proof (bind_model_model_calls c st) as Hb.
    destruct (bind_model c st) as [[m|e] st1]; [|done]. simpl in *.
    pose proof (get_model_calls "face_encoder" st1) as Hg.
    destruct (LazyStore.get "face_encoder" st1) as [[enc|e] st2]; simpl in *;
      congruence.
  - intros key shapes st' Hkey. rewrite landmark_empty.
    unfold bind, bind_model. rewrite Hkey. unfold bind, ret.
    destruct (LazyStore.get key st) as [[m|e] st1] eqn:Hg; [|done].
    intros [= <- <-]. split; [done|].
    rewrite (get_ok_cached _ _ _ _ Hg). by eexists.
  - intros key encodings st' Hkey. rewrite encode_empty.
    unfold bind at 1. unfold bind_model. rewrite Hkey. unfold bind at 1.
    destruct (LazyStore.get key st) as [[m|e] st1] eqn:Hg; [|done].
    unfold ret at 1. unfold bind.
    destruct (LazyStore.get "face_encoder" st1) as [[enc|e] st2] eqn:Hg2;
      [|done].
    intros [= <- <-]. split; [done|].
    pose proof (get_keeps "face_encoder" key st1 m
                  (get_ok_cached _ _ _ _ Hg)) as Hkeep.
    rewrite Hg2 in Hkeep. simpl in Hkeep. rewrite Hkeep.
    rewrite (get_ok_cached _ _ _ _ Hg2). split; by eexists.
Qed.

(** Everything [detect] does after binding the detector. *)
Lemma detect_after_get img (u : Z) st fd st1 :
  LazyStore.get "face_detector" st = (Ok fd, st1) →
  detect img u st =
    (match call_detector fd img u with
     | Ok rects => Ok (_rect_to_tuple <$> rects)
     | Raise e => Raise e
     end,
     State (lazy_vars st1) (world st1) (trace st1 ++ [EvDetector fd img u])).
Proof.
  intros Hg. unfold detect. unfold bind at 1. rewrite Hg.
  unfold bind, emit, lift, ret.
  by destruct (call_detector fd img u).
Qed.

(** *** Traces only grow *)

Lemma grows_ret {A} (a : A) : grows (ret a).
Proof. intros st. exists []. simpl. by rewrite app_nil_r. Qed.

Lemma grows_raise {A} cls msg : grows (@raise state A cls msg).
Proof. intros st. exists []. simpl. by rewrite app_nil_r. Qed.

Lemma grows_lift {A} (o : outcome A) : grows (lift o).
Proof. intros st. exists []. simpl. by rewrite app_nil_r. Qed.

Lemma grows_emit e : grows (emit e).
Proof. intros st. by exists [e]. Qed.

Lemma grows_bind {A B} (m : M state A) (k : A → M state B) :
  grows m → (∀ a, grows (k a)) → grows (bind m k).
Proof.
  intros Hm Hk st. unfold bind. destruct (Hm st) as [ext1 H1].
  destruct (m st) as [[a|e] st1]; simpl in *; [|by exists ext1].
  destruct (Hk a st1) as [ext2 H2]. exists (ext1 ++ ext2).
  by rewrite H2, H1, app_assoc.
Qed.

Lemma grows_get (k : string) : grows (LazyStore.get k).
Proof.
  intros st. destruct (get_trace k st) as [-> | ->]; [exists []|by eexists].
  by rewrite app_nil_r.
Qed.

Lemma grows_for_each {A B} (f : A → M state B) (xs : list A) :
  (∀ a, grows (f a)) → grows (for_each f xs).
Proof.
  intros Hf. induction xs as [|a xs IH]; simpl; [apply grows_ret|].
  apply grows_bind; [done|]. intros b.
  apply grows_bind; [done|]. intros bs. apply grows_ret.
Qed.

Lemma grows_call_model (o : option Obj) img r : grows (call_model o img r).
Proof.
  destruct o; simpl; [|apply grows_raise].
  apply grows_bind; [apply grows_emit|]. intros _. apply grows_lift.
Qed.

Lemma grows_predict (o : option Obj) img (loc : location) :
  grows (predict o img loc).
Proof.
  unfold predict. apply grows_bind; [apply grows_lift|].
  intros r. apply grows_call_model.
Qed.

Lemma grows_init c (P : list point) : grows (Shape.init c P).
Proof.
  unfold Shape.init. apply grows_bind.
  - destruct c; simpl; [apply grows_ret| |];
      repeat (apply grows_bind; [apply grows_lift|]; intros ?);
      apply grows_ret.
  - intros d. destruct (Shape.predictor_key c); [|apply grows_ret].
    apply grows_bind; [apply grows_get|]. intros m. apply grows_ret.
Qed.

Lemma grows_landmark img (L : list location) c (u : Z) :
  grows (landmark img (Some L) c u).
Proof.
  unfold landmark. apply grows_bind; [apply grows_ret|]. intros locs.
  apply grows_bind; [apply grows_init|]. intros shaper.
  apply grows_bind.
  - apply grows_for_each. intros loc. apply grows_predict.
  - intros faces. apply grows_for_each. intros face. apply grows_init.
Qed.

Lemma grows_encode img (L : list location) c (j : Z) :
  grows (encode img (Some L) c j).
Proof.
  unfold encode. apply grows_bind; [apply grows_ret|]. intros locs.
  apply grows_bind; [apply grows_init|]. intros shaper.
  apply grows_bind; [apply grows_get|]. intros enc.
  apply grows_bind.
  - apply grows_for_each. intros loc. apply grows_predict.
  - intros faces. apply grows_for_each. intros face.
    apply grows_bind; [apply grows_emit|]. intros _. apply grows_lift.
Qed.

(** What follows a [detect] whose detector is bound: the invocation is the
    next event of the trace, whatever the continuation does. *)
Lemma detect_then {A} img (u : Z) (k : list location → M state A) st fd st1 :
  LazyStore.get "face_detector" st = (Ok fd, st1) →
  (∀ locs, grows (k locs)) →
  ∃ rest, trace (bind (detect img u) k st).2 =
          trace st1 ++ EvDetector fd img u :: rest.
Proof.
  intros Hg Hk. unfold bind. rewrite (detect_after_get _ _ _ _ _ Hg).
  destruct (call_detector fd img u) as [rects|e]; [|by exists []].
  destruct (Hk (_rect_to_tuple <$> rects)
    (State (lazy_vars st1) (world st1) (trace st1 ++ [EvDetector fd img u])))
    as [ext Hext].
  exists ext. rewrite Hext. simpl. by rewrite <- app_assoc.
Qed.

(** C5. With [locations] omitted, [encode] is [detect] at upsampling 1
    followed by [encode] on the locations found; [encode] has no upsample
    argument to pass on.  [landmark] in the same situation is [detect] at
    the caller's [upsample].  In terms of calls: once the detector is
    bound, the next event is its invocation, with 1 from [encode] and with
    [u] from [landmark]. *)
Theorem encode_detects_with_default_upsample img c (j : Z) st :
  encode img None c j st =
    (let* locs := detect img 1 in encode img (Some locs) c j) st ∧
  (∀ u, landmark img None c u st =
    (let* locs := detect img u in landmark img (Some locs) c u) st) ∧
  (∀ fd st1, LazyStore.get "face_detector" st = (Ok fd, st1) →
    (∃ rest, trace (encode img None c j st).2 =
             trace st1 ++ EvDetector fd img 1 :: rest) ∧
    (∀ u, ∃ rest, trace (landmark img None c u st).2 =
                  trace st1 ++ EvDetector fd img u :: rest)).
Proof.
  assert (encode img None c j st =
    (let* locs := detect img 1 in encode img (Some locs) c j) st) as He
    by reflexivity.
  assert (∀ u, landmark img None c u st =
    (let* locs := detect img u in landmark img (Some locs) c u) st) as Hl
    by reflexivity.
  split; [done|]. split; [done|]. intros fd st1 Hg. split.
  - rewrite He. apply detect_then; [done|]. intros locs. apply grows_encode.
  - intros u. rewrite Hl. apply detect_then; [done|]. intros locs.
    apply grows_landmark.
Qed.

(** *** One shape per location *)

Lemma for_each_cons {S A B} (f : A → M S B) (a : A) (xs : list A) :
  for_each f (a :: xs) =
  (let* v := f a in let* vs := for_each f xs in ret (v :: vs)).
Proof. reflexivity. Qed.

Lemma call_model_ok m img (r : rectangle) face st :
  call_predictor m img r = Ok face →
  call_model (Some m) img r st =
    (Ok face,
     State (lazy_vars st) (world st) (trace st ++ [EvPredictor m img r])).
Proof.
  intros Hface. unfold call_model, bind, emit, lift. by rewrite Hface.
Qed.

Lemma predict_ok m img (loc : location) (r : rectangle) face st :
  _tuple_to_rect loc = Ok r →
  call_predictor m img r = Ok face →
  predict (Some m) img loc st =
    (Ok face,
     State (lazy_vars st) (world st) (trace st ++ [EvPredictor m img r])).
Proof.
  intros Hr Hface. unfold predict, bind at 1, lift. rewrite Hr.
  by apply call_model_ok.
Qed.

Lemma rects_of_cons (loc : location) (r : rectangle) (L : list location) :
  _tuple_to_rect loc = Ok r → rects_of (loc :: L) = r :: rects_of L.
Proof. intros Hr. unfold rects_of. simpl. unfold as_rect at 1. by rewrite Hr. Qed.

(** The predictor run over the locations, in order: one invocation each,
    at the rectangle of the location. *)
Lemma for_each_predict m img (L : list location) st :
  (∀ loc, loc ∈ L → ∃ face, predicts m img loc face) →
  ∃ faces,
    for_each (λ loc, predict (Some m) img loc) L st =
      (Ok faces,
       State (lazy_vars st) (world st)
             (trace st ++ (EvPredictor m img <$> rects_of L))) ∧
    Forall2 (predicts m img) L faces ∧
    length (rects_of L) = length L.
Proof.
  revert st. induction L as [|loc L IH]; intros st HL.
  { exists []. simpl. rewrite app_nil_r. by destruct st. }
  destruct (HL loc) as (face & r & Hr & Hface); [left|].
  destruct (IH (State (lazy_vars st) (world st)
                      (trace st ++ [EvPredictor m img r])))
    as (faces & Hrun & Hall & Hlen).
  { intros loc' Hin. apply HL. by right. }
  exists (face :: faces). rewrite (rects_of_cons loc r L Hr).
  split; [|split].
  - rewrite for_each_cons. unfold bind at 1.
    rewrite (predict_ok _ _ _ _ _ _ Hr Hface).
    unfold bind at 1. rewrite Hrun. simpl. by rewrite <- app_assoc.
  - constructor; [by exists r|done].
  - simpl. by rewrite Hlen.
Qed.

(** Building a shape of a class whose predictor is cached: no effect. *)
Lemma init_cached c (key : string) m (P : list point) st :
  Shape.predictor_key c = Some key →
  dict (lazy_vars st) !! key = Some m →
  (min_points c ≤ length P)%nat →
  ∃ d, Shape.init c P st = (Ok (Shape.Make P d (Some m) c), st).
Proof.
  intros Hkey Hd Hlen. destruct (init_long c P Hlen) as [d Hinit].
  exists d. rewrite Hinit. unfold bind, bind_model. rewrite Hkey.
  unfold bind. by rewrite (get_cached _ _ _ Hd).
Qed.

Lemma for_each_init_cached c (key : string) m
    (faces : list full_object_detection) st :
  Shape.predictor_key c = Some key →
  dict (lazy_vars st) !! key = Some m →
  Forall (λ face, (min_points c ≤ length (parts face))%nat) faces →
  ∃ shapes,
    for_each (λ face, Shape.init c (coords face)) faces st = (Ok shapes, st) ∧
    Forall2 (λ face s, Shape.points s = coords face ∧ Shape.class s = c ∧
                       Shape.model s = Some m) faces shapes.
Proof.
  intros Hkey Hd Hall. induction Hall as [|face faces Hface _ IH].
  { by exists []. }
  destruct IH as (shapes & Hrun & Hrel).
  destruct (init_cached c key m (coords face) st Hkey Hd) as [d Hinit].
  { unfold coords. by rewrite length_fmap. }
  eexists (_ :: shapes). split.
  - rewrite for_each_cons. unfold bind at 1. rewrite Hinit.
    unfold bind at 1. by rewrite Hrun.
  - by constructor.
Qed.

Lemma landmark_unfold img (L : list location) c (u : Z) st :
  landmark img (Some L) c u st =
  (let* shaper := Shape.init c range68 in
   let* shapelist := for_each (λ loc, predict (Shape.model shaper) img loc) L in
   for_each (λ face, Shape.init c (coords face)) shapelist) st.
Proof. reflexivity. Qed.

Lemma bind_model_ok c (key : string) m st st1 :
  Shape.predictor_key c = Some key →
  LazyStore.get key st = (Ok m, st1) →
  bind_model c st = (Ok (Some m), st1).
Proof.
  intros Hkey Hget. unfold bind_model. rewrite Hkey. unfold bind.
  by rewrite Hget.
Qed.

(** C9, as the code has it.  Let the class have a predictor, let it be
    bound to [m], and let every location of [L] be four integers that
    [dlib.rectangle] accepts, at whose rectangle [m] returns a detection
    with enough parts for the class.  Then [landmark(img, locations=L)] returns a list of shapes as
    long as [L] whose i-th shape is of that class and holds the points [m]
    returned at the i-th location; and [m] was invoked once per location,
    in the order of [L], at the rectangle of that location. *)
Theorem landmark_one_shape_per_location img (L : list location) c (u : Z)
    (key : string) m st st1 :
  Shape.predictor_key c = Some key →
  LazyStore.get key st = (Ok m, st1) →
  (∀ loc, loc ∈ L → ∃ face,
     predicts m img loc face ∧ (min_points c ≤ length (parts face))%nat) →
  ∃ shapes st',
    landmark img (Some L) c u st = (Ok shapes, st') ∧
    length shapes = length L ∧
    Forall2 (λ loc s, ∃ face,
               predicts m img loc face ∧
               Shape.points s = coords face ∧
               Shape.class s = c ∧ Shape.model s = Some m) L shapes ∧
    trace st' = trace st1 ++ (EvPredictor m img <$> rects_of L) ∧
    length (rects_of L) = length L.
Proof.
  intros Hkey Hget HL.
  pose proof (get_ok_cached _ _ _ _ Hget) as Hcached.
  destruct (shaper_unfold c) as [d0 Hshaper].
  destruct (for_each_predict m img L st1) as (faces & Hfaces & Hrel1 & Hrects).
  { intros loc Hin. destruct (HL loc Hin) as (face & Hface & _). by exists face. }
  set (st2 := State (lazy_vars st1) (world st1)
    (trace st1 ++ (EvPredictor m img <$> rects_of L))) in *.
  destruct (for_each_init_cached c key m faces st2 Hkey Hcached)
    as (shapes & Hshapes & Hrel2).
  { apply Forall_forall. intros face Hin.
    destruct (proj1 (list_elem_of_lookup faces face) Hin) as [i Hi].
    destruct (Forall2_lookup_r _ _ _ _ _ Hrel1 Hi)
      as (loc & Hloc & r & Hr & Hcall).
    destruct (HL loc) as (face' & (r' & Hr' & Hcall') & Hlen).
    { apply list_elem_of_lookup. by exists i. }
    congruence. }
  exists shapes, st2. split; [|split; [|split; [|split]]].
  - rewrite landmark_unfold. unfold bind at 1. rewrite Hshaper.
    unfold bind at 1. rewrite (bind_model_ok _ _ _ _ _ Hkey Hget).
    unfold ret at 1. cbv beta iota. cbn [Shape.model].
    unfold bind at 1. rewrite Hfaces. exact Hshapes.
  - rewrite <- (Forall2_length _ _ _ Hrel2). symmetry.
    exact (Forall2_length _ _ _ Hrel1).
  - clear -Hrel1 Hrel2. revert shapes Hrel2.
    induction Hrel1 as [|loc face L faces Hcall _ IH]; intros shapes Hrel2.
    + inversion Hrel2. constructor.
    + inversion Hrel2 as [|? s ? shapes' Hs Hrest]; subst.
      constructor; [|by apply IH].
      exists face. by destruct Hs as (? & ? & ?).
  - done.
  - done.
Qed.

End PipelineFacts.

(** ** Atlas *)

Section AtlasFacts.
Implicit Types (a b : gmap string pyval) (d : disk) (s : Atlas.st) (p : string).

(** *** [dict.update] from a dictionary *)

Lemma for_each_setattr (items : list (string * pyval)) a d :
  for_each (λ kv : string * pyval, Atlas.setattr kv.1 kv.2) items (Atlas.St a d) =
  (Ok ((λ _, tt) <$> items),
   Atlas.St (foldl (λ m kv, <[kv.1 := kv.2]> m) a items) d).
Proof.
  revert a. induction items as [|kv items IH]; intros a; [done|].
  rewrite for_each_cons. unfold bind at 1. unfold Atlas.setattr at 1.
  simpl. unfold bind at 1. by rewrite IH.
Qed.

Lemma dict_update_dict (items : list (string * pyval)) a d :
  Atlas.dict_update (PDict items) (Atlas.St a d) =
  (Ok tt, Atlas.St (foldl (λ m kv, <[kv.1 := kv.2]> m) a items) d).
Proof.
  unfold Atlas.dict_update, bind. by rewrite for_each_setattr.
Qed.

Lemma foldl_insert_list_to_map (items : list (string * pyval)) :
  foldl (λ m kv, <[kv.1 := kv.2]> m) (∅ : gmap string pyval) items =
  list_to_map (reverse items).
Proof.
  induction items as [|[k v] items IH] using rev_ind; [done|].
  rewrite foldl_app, reverse_app. simpl. by rewrite IH.
Qed.

(** Updating the cleared dictionary with the items of [a] gives [a]. *)
Lemma foldl_insert_map_to_list a :
  foldl (λ m kv, <[kv.1 := kv.2]> m) (∅ : gmap string pyval) (map_to_list a) = a.
Proof.
  rewrite foldl_insert_list_to_map.
  rewrite <- (list_to_map_to_list a) at 2.
  apply list_to_map_proper.
  - rewrite fmap_reverse, reverse_Permutation. apply NoDup_fst_map_to_list.
  - apply reverse_Permutation.
Qed.

(** *** [load] and [save], case by case *)

Lemma load_at p (f : file) s :
  Atlas.self s !! "path" = Some (PStr p) →
  files (Atlas.dsk s) !! p = Some f →
  Atlas.load s =
  match f with
  | Pickled v => Atlas.dict_update v (Atlas.St ∅ (Atlas.dsk s))
  | Unreadable e => (Raise e, s)
  end.
Proof.
  intros Hp Hf.
  unfold Atlas.load, bind, Atlas.getattr, Atlas.as_path, Atlas.open_rb.
  rewrite Hp. simpl. rewrite Hf. by destruct f.
Qed.

Lemma load_absent p s :
  Atlas.self s !! "path" = Some (PStr p) →
  files (Atlas.dsk s) !! p = None →
  Atlas.load s = (Raise (Exn FileNotFoundError p), s).
Proof.
  intros Hp Hf.
  unfold Atlas.load, bind, Atlas.getattr, Atlas.as_path, Atlas.open_rb.
  rewrite Hp. simpl. by rewrite Hf.
Qed.

(** No usable path: [load] and [save] stop before they reach the disk. *)
Lemma no_path (k : string → M Atlas.st unit) s :
  (∀ p, Atlas.self s !! "path" ≠ Some (PStr p)) →
  ∃ e, (let* path := Atlas.getattr "path" in
        let* path := Atlas.as_path path in k path) s = (Raise e, s).
Proof.
  intros Hp. unfold bind, Atlas.getattr.
  destruct (Atlas.self s !! "path") as [v|] eqn:Hv; [|by eexists].
  destruct v; try (by eexists). by destruct (Hp s0).
Qed.

Lemma load_snapshot a b d p :
  b !! "path" = Some (PStr p) →
  files d !! p = Some (snapshot a) →
  Atlas.load (Atlas.St b d) = (Ok tt, Atlas.St a d).
Proof.
  intros Hp Hf. rewrite (load_at p (snapshot a)) by done.
  unfold snapshot. cbn [Atlas.dsk].
  by rewrite dict_update_dict, foldl_insert_map_to_list.
Qed.

Lemma save_at p a d :
  a !! "path" = Some (PStr p) →
  Atlas.save (Atlas.St a d) =
  if decide (p ∈ unwritable d)
  then (Raise (Exn PermissionError p), Atlas.St a d)
  else (Ok tt, Atlas.St a (Disk (<[p := snapshot a]> (files d)) (unwritable d))).
Proof.
  intros Hp.
  unfold Atlas.save, bind, Atlas.getattr, Atlas.as_path, Atlas.open_wb.
  simpl. rewrite Hp. simpl. by destruct (decide (p ∈ unwritable d)).
Qed.

(** A [save] that returns has written the snapshot of [self] at its path. *)
Lemma save_ok_inv a d s' :
  Atlas.save (Atlas.St a d) = (Ok tt, s') →
  ∃ p, a !! "path" = Some (PStr p) ∧
       s' = Atlas.St a (Disk (<[p := snapshot a]> (files d)) (unwritable d)).
Proof.
  intros Hs.
  unfold Atlas.save, bind, Atlas.getattr, Atlas.as_path, Atlas.open_wb in Hs.
  simpl in Hs. destruct (a !! "path") as [v|] eqn:Hv; [|discriminate].
  destruct v as [| | | |p| | |]; simpl in Hs; try discriminate.
  exists p. split; [done|].
  destruct (decide (p ∈ unwritable d)); [discriminate|].
  by injection Hs as <-.
Qed.

Lemma init_path (elements path : pyval) :
  Atlas.init elements path !! "path" = Some path.
Proof. reflexivity. Qed.

Lemma init_invariant (elements path : pyval) :
  Atlas.invariant (Atlas.init elements path) = true.
Proof. reflexivity. Qed.

(** C8. If [A.save()] returns, then [A] is unchanged and [load()] on a
    fresh Atlas built with [A]'s path (and any elements) returns and leaves
    that Atlas with exactly [A]'s attributes: its elements, clusters, groups
    and grouped are those of [A], as is every other attribute. *)
Theorem save_load_roundtrip a d s' (elements path : pyval) :
  a !! "path" = Some path →
  Atlas.save (Atlas.St a d) = (Ok tt, s') →
  Atlas.self s' = a ∧
  Atlas.load (Atlas.St (Atlas.init elements path) (Atlas.dsk s')) =
    (Ok tt, Atlas.St a (Atlas.dsk s')).
Proof.
  intros Hpath Hsave.
  destruct (save_ok_inv a d s' Hsave) as (p & Hp & ->).
  assert (path = PStr p) as -> by congruence.
  split; [done|]. apply (load_snapshot a _ _ p); [apply init_path|].
  simpl. apply lookup_insert_eq.
Qed.

(** C10. [load] is atomic on failure.  When there is no file at the path
    of the Atlas, [load] raises [FileNotFoundError]; when the contents of
    the file fail to deserialize, [load] raises what [pickle.load]
    raised; and when the Atlas has no usable path, [load] raises before it
    reaches the disk.  In each case the Atlas, every attribute of it, and
    the disk are exactly as before the call: deserialization comes before
    [self.__dict__.clear()]. *)
Theorem load_failure_atomic s :
  ((∀ p, Atlas.self s !! "path" ≠ Some (PStr p)) →
     ∃ e, Atlas.load s = (Raise e, s)) ∧
  (∀ p, Atlas.self s !! "path" = Some (PStr p) →
     (files (Atlas.dsk s) !! p = None →
        Atlas.load s = (Raise (Exn FileNotFoundError p), s)) ∧
     (∀ e, files (Atlas.dsk s) !! p = Some (Unreadable e) →
        Atlas.load s = (Raise e, s))).
Proof.
  split.
  { intros Hp. unfold Atlas.load. by apply no_path. }
  intros p Hp. split; [by apply load_absent|].
  intros e Hf. by rewrite (load_at p (Unreadable e)).
Qed.

(** *** The invariant along a program *)

Lemma group_ok a d :
  Atlas.invariant a = true → disk_ok d →
  Atlas.invariant (Atlas.self (Atlas.group (Atlas.St a d)).2) = true ∧
  disk_ok (Atlas.dsk (Atlas.group (Atlas.St a d)).2).
Proof. done. Qed.

Lemma save_ok a d :
  Atlas.invariant a = true → disk_ok d →
  Atlas.invariant (Atlas.self (Atlas.save (Atlas.St a d)).2) = true ∧
  disk_ok (Atlas.dsk (Atlas.save (Atlas.St a d)).2).
Proof.
  intros Ha Hd. destruct (a !! "path") as [v|] eqn:Hv.
  2:{ unfold Atlas.save, bind, Atlas.getattr. simpl. by rewrite Hv. }
  destruct v as [| | | |p| | |];
    try (unfold Atlas.save, bind, Atlas.getattr; simpl; by rewrite Hv).
  rewrite (save_at p) by done.
  destruct (decide (p ∈ unwritable d)); [done|]. split; [done|].
  intros q v. simpl. rewrite lookup_insert. case_decide.
  - intros [= <-]. by exists a.
  - apply Hd.
Qed.

Lemma load_ok a d :
  Atlas.invariant a = true → disk_ok d →
  Atlas.invariant (Atlas.self (Atlas.load (Atlas.St a d)).2) = true ∧
  disk_ok (Atlas.dsk (Atlas.load (Atlas.St a d)).2).
Proof.
  intros Ha Hd. destruct (a !! "path") as [v|] eqn:Hv.
  2:{ unfold Atlas.load, bind, Atlas.getattr. simpl. by rewrite Hv. }
  destruct v as [| | | |p| | |];
    try (unfold Atlas.load, bind, Atlas.getattr; simpl; by rewrite Hv).
  destruct (files d !! p) as [f|] eqn:Hf.
  2:{ by rewrite (load_absent p). }
  rewrite (load_at p f) by done. destruct f as [v|e]; [|done].
  destruct (Hd p v Hf) as (b & -> & Hb). cbn [Atlas.dsk].
  by rewrite dict_update_dict, foldl_insert_map_to_list.
Qed.

Lemma call_method_ok (m : M Atlas.st unit) (i : nat) (h : heap) :
  (∀ a d, Atlas.invariant a = true → disk_ok d →
     Atlas.invariant (Atlas.self (m (Atlas.St a d)).2) = true ∧
     disk_ok (Atlas.dsk (m (Atlas.St a d)).2)) →
  heap_ok h → heap_ok (call_method m i h).
Proof.
  intros Hm [Hall Hd]. unfold call_method.
  destruct (atlases h !! i) as [a|] eqn:Hi; [|done].
  destruct (Hm a (hdisk h)) as [Ha' Hd']; [|done|].
  { by apply (Forall_lookup_1 _ _ _ _ Hall Hi). }
  split; [|done]. simpl. by apply Forall_insert.
Qed.

Lemma step_ok (h : heap) (o : op) : heap_ok h → heap_ok (step h o).
Proof.
  intros Hh. destruct o as [elements path|i|i|i]; simpl.
  - destruct Hh as [Hall Hd]. split; [|done]. simpl.
    apply Forall_app. split; [done|].
    constructor; [apply init_invariant|constructor].
  - apply call_method_ok; [apply group_ok|done].
  - apply call_method_ok; [apply save_ok|done].
  - apply call_method_ok; [apply load_ok|done].
Qed.

Lemma exec_ok (ops : list op) (h : heap) : heap_ok h → heap_ok (exec ops h).
Proof.
  revert h. induction ops as [|o ops IH]; intros h Hh; [done|].
  simpl. apply IH. by apply step_ok.
Qed.

(** C7, as the code has it.  Start with no Atlas and a disk on which every
    readable pickle is a snapshot written by [save] from an Atlas
    satisfying the invariant (an empty disk, for one).  After any sequence of constructions and of
    [group], [save] and [load] calls on the objects constructed, whether or
    not those calls raise, every Atlas has [grouped] and [groups] with
    [grouped == True] exactly when [groups is not None]. *)
Theorem atlas_invariant_reachable (d : disk) (ops : list op) :
  disk_ok d →
  Forall (λ a, Atlas.invariant a = true) (atlases (exec ops (Heap [] d))).
Proof.
  intros Hd. apply (exec_ok ops (Heap [] d)). split; [constructor|done].
Qed.

End AtlasFacts.

(** ** Concrete runs *)

Section Runs.
Existing Instance toy.

Lemma run_eq {A S} (r : outcome A * S) (o : outcome A) :
  r.1 = o → r = (o, r.2).
Proof. destruct r. simpl. by intros ->. Qed.

Lemma get_twice_same_instance_witness :
  dict (lazy_vars toy_state) !! "shape_predictor_68p" = None ∧
  ∃ st1,
    LazyStore.get "shape_predictor_68p" toy_state = (Ok 0%nat, st1) ∧
    LazyStore.get "shape_predictor_68p" st1 = (Ok 0%nat, st1) ∧
    trace st1 = trace toy_state ++ [EvFactory "shape_predictor_68p"] ∧
    factory_calls "shape_predictor_68p" (trace st1) =
      S (factory_calls "shape_predictor_68p" (trace toy_state)) ∧
    dict (lazy_vars st1) !! "shape_predictor_68p" = Some 0%nat.
Proof.
  split; [reflexivity|].
  apply (get_twice_same_instance toy_state "shape_predictor_68p"
           recipe_68p 0%nat 1%nat); reflexivity.
Defined.

Lemma get_never_registered_fails_witness :
  Forall (λ o, registers "gender_model_v2" o = false) toy_ops ∧
  let st := foldl store_step (State (LazyStore.init None None) 0%nat []) toy_ops in
  LazyStore.get "gender_model_v2" st = (Raise unregistered, st) ∧
  isinstance unregistered LookupError = true ∧
  dict (lazy_vars st) !! "gender_model_v2" = None.
Proof.
  assert (Forall (λ o, registers "gender_model_v2" o = false) toy_ops) as Hops
    by (repeat (constructor; [reflexivity|]); constructor).
  split; [exact Hops|].
  exact (get_never_registered_fails 0%nat toy_ops "gender_model_v2" Hops).
Defined.

Lemma shape68_region_partition_witness :
  length range68 = 68%nat ∧
  ∃ d,
    Shape.init Shape.Shape68p range68 toy_state =
      (let* m := bind_model Shape.Shape68p in
       ret (Shape.Make range68 d m Shape.Shape68p)) toy_state ∧
    d !! "jawline" = Some (take 17 range68) ∧
    d !! "nose_bridge" = Some (take 4 (drop 27 range68)) ∧
    ∃ top, d !! "lips_top" = Some top ∧
      Some <$> top =
      (λ i, range68 !! i) <$> [48; 49; 50; 51; 52; 53; 54; 64; 63; 62; 61; 60]%nat.
Proof.
  split; [reflexivity|].
  apply (shape68_region_partition range68 toy_state). reflexivity.
Defined.

(** C3 at a concrete input: just after import nothing is cached; the call
    [landmark(img, locations=[])] returns the empty list having applied the
    recipe of the 68-point predictor and cached its result, and [encode]
    with an empty list applies that recipe and the encoder's. *)
Lemma empty_locations_materialize :
  dict (lazy_vars toy_state) = ∅ ∧
  trace toy_state = [] ∧
  (let r := landmark toy_img (Some []) Shape.Shape68p 1 toy_state in
   r.1 = Ok [] ∧
   dict (lazy_vars r.2) !! "shape_predictor_68p" = Some 0%nat ∧
   trace r.2 = [EvFactory "shape_predictor_68p"]) ∧
  (let r := encode toy_img (Some []) Shape.Shape68p 1 toy_state in
   r.1 = Ok [] ∧
   dict (lazy_vars r.2) !! "shape_predictor_68p" = Some 0%nat ∧
   dict (lazy_vars r.2) !! "face_encoder" = Some 1%nat ∧
   trace r.2 = [EvFactory "shape_predictor_68p"; EvFactory "face_encoder"]).
Proof. repeat split; vm_compute; reflexivity. Qed.

Lemma empty_locations_bind_models_witness :
  ∃ st',
    landmark toy_img (Some []) Shape.Shape68p 1 toy_state = (Ok [], st') ∧
    is_Some (dict (lazy_vars st') !! "shape_predictor_68p").
Proof.
  destruct (empty_locations_bind_models toy_img Shape.Shape68p 1 1 toy_state)
    as (_ & _ & _ & _ & Hbound & _).
  assert (landmark toy_img (Some []) Shape.Shape68p 1 toy_state =
          (Ok [], (landmark toy_img (Some []) Shape.Shape68p 1 toy_state).2)) as Hrun
    by (apply run_eq; vm_compute; reflexivity).
  eexists. split; [exact Hrun|].
  exact (proj2 (Hbound "shape_predictor_68p" [] _ eq_refl Hrun)).
Defined.

(** C4 at concrete inputs: a 5-point shape built from 68 points, as
    [landmark] builds one to find the predictor, and a 68-point shape built
    from 61 points. *)
Lemma shapes_of_other_lengths :
  (let r := Shape.init Shape.Shape5p range68 toy_state in
   ∃ s, r.1 = Ok s ∧
        Shape.class s = Shape.Shape5p ∧ length (Shape.points s) = 68%nat) ∧
  (let r := Shape.init Shape.Shape68p range61 toy_state in
   ∃ s, r.1 = Ok s ∧
        Shape.class s = Shape.Shape68p ∧ length (Shape.points s) = 61%nat).
Proof.
  split; simpl; eexists; (split; [vm_compute; reflexivity|]);
    split; reflexivity.
Qed.

Lemma encode_detects_with_default_upsample_witness :
  ∃ rest,
    trace (encode toy_img None Shape.Shape68p 1 toy_state).2 =
    trace (LazyStore.get "face_detector" toy_state).2 ++
    EvDetector 0%nat toy_img 1 :: rest.
Proof.
  destruct (encode_detects_with_default_upsample toy_img Shape.Shape68p 1 toy_state)
    as (_ & _ & Hcall).
  refine (proj1 (Hcall 0%nat (LazyStore.get "face_detector" toy_state).2 _)).
  reflexivity.
Defined.

(** C9 at a concrete input: a list of one location whose first coordinate
    is [2^63].  The predictor is bound and would return at any rectangle,
    but [dlib.rectangle] refuses the tuple: [landmark] raises [TypeError],
    returns no list, and invokes no model. *)
Lemma landmark_refuses_huge_location :
  let r := landmark toy_img (Some [huge_location]) Shape.Shape68p 1 toy_state in
  (∃ e, r.1 = Raise e ∧ isinstance e TypeError = true) ∧
  model_calls (trace r.2) = [] ∧
  ¬ ∃ shapes st', r = (Ok shapes, st') ∧ length shapes = length [huge_location].
Proof.
  assert ((landmark toy_img (Some [huge_location]) Shape.Shape68p 1 toy_state).1 =
          Raise (Exn TypeError "__init__(): incompatible constructor arguments"))
    as Hraise by (vm_compute; reflexivity).
  split; [by eexists|]. split; [vm_compute; reflexivity|].
  intros (shapes & st' & Hrun & _). rewrite Hrun in Hraise. discriminate Hraise.
Qed.

Lemma landmark_one_shape_per_location_witness :
  ∃ shapes st',
    landmark toy_img (Some toy_locations) Shape.Shape68p 1 toy_state = (Ok shapes, st') ∧
    length shapes = length toy_locations ∧
    Forall2 (λ loc s, ∃ face,
               predicts 0%nat toy_img loc face ∧
               Shape.points s = coords face ∧
               Shape.class s = Shape.Shape68p ∧ Shape.model s = Some 0%nat)
            toy_locations shapes ∧
    trace st' =
      trace (LazyStore.get "shape_predictor_68p" toy_state).2 ++
      (EvPredictor 0%nat toy_img <$> rects_of toy_locations) ∧
    length (rects_of toy_locations) = length toy_locations.
Proof.
  apply (landmark_one_shape_per_location toy_img toy_locations Shape.Shape68p 1
           "shape_predictor_68p" 0%nat toy_state); [reflexivity..|].
  intros loc Hin.
  apply elem_of_cons in Hin as [->|Hin];
    [|apply list_elem_of_singleton in Hin as ->].
  - exists (toy_face toy_rect). split; [by exists toy_rect|]. vm_compute. lia.
  - exists (toy_face toy_rect2). split; [by exists toy_rect2|]. vm_compute. lia.
Defined.

End Runs.

(** [0.475 == True] is false; [1.0] and [1.0000000000000000001], which is
    the same double, equal [True]. *)
Lemma eq_True_floats :
  Atlas.eq_True (PFloat 475 (-3)) = false ∧
  Atlas.eq_True (PFloat 10 (-1)) = true ∧
  Atlas.eq_True (PFloat 10000000000000000001 (-19)) = true ∧
  Atlas.eq_True (PFloat 1001 (-3)) = false.
Proof. repeat split; vm_compute; reflexivity. Qed.

Lemma disk_ok_empty : disk_ok empty_disk.
Proof. intros p v Hf. simpl in Hf. by rewrite lookup_empty in Hf. Qed.

Lemma atlas_invariant_reachable_witness :
  disk_ok empty_disk ∧
  Forall (λ a, Atlas.invariant a = true)
         (atlases (exec toy_program (Heap [] empty_disk))).
Proof.
  split; [exact disk_ok_empty|].
  exact (atlas_invariant_reachable empty_disk toy_program disk_ok_empty).
Defined.

Lemma save_load_roundtrip_witness :
  let s' := (Atlas.save (Atlas.St toy_atlas empty_disk)).2 in
  Atlas.self s' = toy_atlas ∧
  Atlas.load (Atlas.St (Atlas.init (PList []) (PStr "atlas.pkl")) (Atlas.dsk s')) =
    (Ok tt, Atlas.St toy_atlas (Atlas.dsk s')).
Proof.
  apply (save_load_roundtrip toy_atlas empty_disk _ (PList []) (PStr "atlas.pkl"));
    reflexivity.
Defined.

Lemma load_failure_atomic_witness :
  Atlas.load (Atlas.St toy_atlas empty_disk) =
    (Raise (Exn FileNotFoundError "atlas.pkl"), Atlas.St toy_atlas empty_disk) ∧
  Atlas.load (Atlas.St toy_atlas torn_disk) =
    (Raise (Exn UnpicklingError "pickle data was truncated"),
     Atlas.St toy_atlas torn_disk).
Proof.
  split.
  - destruct (load_failure_atomic (Atlas.St toy_atlas empty_disk)) as [_ Hat].
    destruct (Hat "atlas.pkl") as [Habsent _]; [reflexivity|].
    apply Habsent. reflexivity.
  - destruct (load_failure_atomic (Atlas.St toy_atlas torn_disk)) as [_ Hat].
    destruct (Hat "atlas.pkl") as [_ Htorn]; [reflexivity|].
    apply Htorn. reflexivity.
Defined.

(** C7 at a concrete input: an Atlas is built on a path where a file holds
    a dictionary with [grouped] true and [groups] [None], and loads it.
    [load] installs the dictionary as it is: the Atlas then has
    [grouped == True] although [groups is None]. *)
Lemma load_breaks_the_invariant :
  files stale_disk !! "atlas.pkl" = Some (Pickled (PDict stale_items)) ∧
  ∃ a, atlases (exec stale_program (Heap [] stale_disk)) !! 0%nat = Some a ∧
       a !! "grouped" = Some (PBool true) ∧
       a !! "groups" = Some PNone ∧
       Atlas.invariant a = false ∧
       ¬ Forall (λ a, Atlas.invariant a = true)
               (atlases (exec stale_program (Heap [] stale_disk))).
Proof.
  split; [reflexivity|].
  exists (list_to_map stale_items).
  assert (atlases (exec stale_program (Heap [] stale_disk)) !! 0%nat =
          Some (list_to_map stale_items)) as Hat by (vm_compute; reflexivity).
  split; [exact Hat|]. split; [reflexivity|]. split; [reflexivity|].
  split; [reflexivity|]. intros Hall.
  pose proof (Forall_lookup_1 _ _ _ _ Hall Hat) as Hinv. discriminate Hinv.
Qed.

(** * Further properties *)

(** ** The registry along a program *)

Section RegistryPrograms.
Context `{Dlib}.
Implicit Types (st : state) (k j : string) (ops : list store_op).

Lemma cached_registered_step st (o : store_op) :
  (∀ k, is_Some (dict (lazy_vars st) !! k) → is_Some (reg (lazy_vars st) !! k)) →
  ∀ k, is_Some (dict (lazy_vars (store_step st o)) !! k) →
       is_Some (reg (lazy_vars (store_step st o)) !! k).
Proof.
  intros Hinv k. destruct o as [k' i a kw|k']; simpl.
  - intros Hk. rewrite lookup_insert. case_decide; [by eexists|by apply Hinv].
  - destruct (get_cases k' st); simpl; try apply Hinv.
    rewrite lookup_insert. case_decide; [subst; by eexists|apply Hinv].
Qed.

Lemma cached_registered_steps ops st :
  (∀ k, is_Some (dict (lazy_vars st) !! k) → is_Some (reg (lazy_vars st) !! k)) →
  ∀ k, is_Some (dict (lazy_vars (foldl store_step st ops)) !! k) →
       is_Some (reg (lazy_vars (foldl store_step st ops)) !! k).
Proof.
  revert st. induction ops as [|o ops IH]; intros st Hinv; [done|].
  simpl. apply IH. by apply cached_registered_step.
Qed.

(** X1. In a registry built by [_LazyStore()], whatever [register] and
    [get] calls follow, a key is never cached without being registered. *)
Theorem cached_keys_are_registered (w : World) ops k :
  let st := foldl store_step (State (LazyStore.init None None) w []) ops in
  is_Some (dict (lazy_vars st) !! k) → is_Some (reg (lazy_vars st) !! k).
Proof.
  apply cached_registered_steps. intros k' [v Hv]. simpl in Hv.
  by rewrite lookup_empty in Hv.
Qed.

Lemma cached_stays_step st (o : store_op) k (v : Obj) :
  dict (lazy_vars st) !! k = Some v →
  dict (lazy_vars (store_step st o)) !! k = Some v.
Proof.
  intros Hk. destruct o as [k' i a kw|k']; simpl; [done|].
  by apply get_keeps.
Qed.

Lemma cached_stays ops st k (v : Obj) :
  dict (lazy_vars st) !! k = Some v →
  dict (lazy_vars (foldl store_step st ops)) !! k = Some v.
Proof.
  revert st. induction ops as [|o ops IH]; intros st Hk; [done|].
  simpl. apply IH. by apply cached_stays_step.
Qed.

(** X2. Once a key is materialized, every later [get] of it returns that
    same object and changes nothing, whatever [register] and [get] calls
    came in between, a new registration of that very key included. *)
Theorem cached_instance_is_stable st ops k (v : Obj) :
  dict (lazy_vars st) !! k = Some v →
  LazyStore.get k (foldl store_step st ops) = (Ok v, foldl store_step st ops).
Proof. intros Hk. apply get_cached. by apply cached_stays. Qed.

(** X3. A constructor that raises leaves nothing behind in the cache: the
    store is as before the call.  Its exception reaches the caller unless
    it is a [KeyError], which is reported as the unregistered-key error.
    The next [get] of the key applies the recipe again. *)
Theorem failed_constructor_is_retried st k (r : recipe) (e : exn) (w' : World) :
  dict (lazy_vars st) !! k = None →
  reg (lazy_vars st) !! k = Some r →
  initer r (args r) (kwargs r) (world st) = (Raise e, w') →
  let run1 := LazyStore.get k st in
  run1.1 = Raise (if isinstance e KeyError then unregistered else e) ∧
  lazy_vars run1.2 = lazy_vars st ∧
  world run1.2 = w' ∧
  factory_calls k (trace (LazyStore.get k run1.2).2) =
    (2 + factory_calls k (trace st))%nat.
Proof.
  intros Hd Hr Hf. simpl. rewrite (get_first_raise st k r e w' Hd Hr Hf).
  simpl. split; [done|]. split; [done|]. split; [done|].
  set (st1 := State (lazy_vars st) w' (trace st ++ [EvFactory k])).
  assert (trace (LazyStore.get k st1).2 = trace st1 ++ [EvFactory k]) as ->.
  { destruct (get_cases k st1) as [v Hv|Hd' Hr'|r' v w'' _ _ _|r' e' w'' _ _ _];
      simpl in *; [congruence|congruence|done|done]. }
  simpl. rewrite !factory_calls_app, factory_calls_self. lia.
Qed.

(** X4. [get] registers nothing and changes no cache entry but that of the
    key asked for; when it raises, the whole store is as before. *)
Theorem get_touches_only_its_key k st :
  reg (lazy_vars (LazyStore.get k st).2) = reg (lazy_vars st) ∧
  (∀ j, j ≠ k →
     dict (lazy_vars (LazyStore.get k st).2) !! j = dict (lazy_vars st) !! j) ∧
  (∀ e, (LazyStore.get k st).1 = Raise e →
     lazy_vars (LazyStore.get k st).2 = lazy_vars st).
Proof.
  split; [apply get_reg|]. split; [intros j Hj; by apply get_dict_other|].
  intros e. by destruct (get_cases k st).
Qed.

(** X5. [register] runs nothing and caches nothing.  On a key that is not
    materialized, the next [get] applies exactly the constructor just
    registered, to the arguments just registered, whatever recipe the key
    had before. *)
Theorem register_then_get st k (i : callable) (a : list string)
    (kw : list (string * string)) (v : Obj) (w' : World) :
  dict (lazy_vars st) !! k = None →
  i a kw (world st) = (Ok v, w') →
  let st0 := (LazyStore.register k i a kw st).2 in
  world st0 = world st ∧ trace st0 = trace st ∧
  dict (lazy_vars st0) = dict (lazy_vars st) ∧
  (LazyStore.get k st0).1 = Ok v ∧
  world (LazyStore.get k st0).2 = w' ∧
  trace (LazyStore.get k st0).2 = trace st ++ [EvFactory k].
Proof.
  intros Hd Hi. simpl. split; [done|]. split; [done|]. split; [done|].
  rewrite (get_first_ok _ k (Recipe i a kw) v w'); [done|done| |done].
  simpl. apply lookup_insert_eq.
Qed.

(** X6. Importing the module constructs no model: the world is untouched,
    no recipe has been applied, nothing is cached, and exactly the five
    model keys are registered. *)
Theorem import_is_lazy (w : World) :
  world (imported w) = w ∧
  trace (imported w) = [] ∧
  dict (lazy_vars (imported w)) = ∅ ∧
  dom (reg (lazy_vars (imported w))) =
    {[ "face_detector"; "face_encoder"; "gender_model";
       "shape_predictor_5p"; "shape_predictor_68p" ]}.
Proof.
  split; [done|]. split; [done|]. split; [done|].
  unfold imported, register_models, bind, LazyStore.register,
    LazyStore.reg_setitem. simpl.
  rewrite !dom_insert_L, dom_empty_L. set_solver.
Qed.

End RegistryPrograms.

(** ** Regions and drawing *)

Section ShapeRegions.
Context `{Dlib} `{Cv2}.
Implicit Types (st : state) (P : list point) (c : Shape.cls) (s : Shape.t).

(** What a successful construction tells about the shape. *)
Lemma init_ok_inv c P st s st' :
  Shape.init c P st = (Ok s, st') →
  (min_points c ≤ length P)%nat ∧
  Shape.points s = P ∧ Shape.class s = c ∧
  ∀ st0, Shape._make_dict c P st0 = (Ok (Shape.dict s), st0).
Proof.
  intros Hinit.
  destruct (decide (length P < min_points c)%nat) as [Hlt|Hge].
  { rewrite init_unfold in Hinit. unfold bind in Hinit.
    rewrite make_dict_short in Hinit by done. discriminate. }
  split; [lia|]. destruct (make_dict_long c P) as [d Hd]; [lia|].
  rewrite init_unfold in Hinit. unfold bind at 1 in Hinit.
  rewrite Hd in Hinit. unfold bind, ret in Hinit.
  destruct (bind_model c st) as [[m|e] st1]; [|discriminate].
  injection Hinit as <- <-. by simpl.
Qed.

(** X7. The dictionary of a 5-point shape has the three keys eye_left,
    eye_right and nose, and these regions, in that order, are the first
    five points given; points beyond the fifth are in no region. *)
Theorem shape5p_regions P :
  (5 ≤ length P)%nat →
  ∃ d, (∀ st, Shape._make_dict Shape.Shape5p P st = (Ok d, st)) ∧
       dom d = {[ "eye_left"; "eye_right"; "nose" ]} ∧
       ∃ eye_left eye_right nose,
         d !! "eye_left" = Some eye_left ∧
         d !! "eye_right" = Some eye_right ∧
         d !! "nose" = Some nose ∧
         eye_left ++ eye_right ++ nose = take 5 P.
Proof.
  intros Hlen.
  do 5 (destruct P as [|? P]; [simpl in Hlen; lia|]).
  eexists. split; [intros st; reflexivity|]. split.
  - simpl. rewrite !dom_insert_L, dom_empty_L. set_solver.
  - eexists _, _, _. repeat split; reflexivity.
Qed.

(** X8. For 68 points, the dictionary has the nine region keys; jawline,
    eyebrow_right, eyebrow_left, nose_bridge, nose_tip, eye_right and
    eye_left are, in that order, the points 0 to 47 without gap or overlap;
    lips_bottom holds the points 54 to 59, then 48 and 60, then 67 down to
    64; and every point from 48 on is in lips_top or lips_bottom, so that
    no landmark is left out of the regions. *)
Theorem shape68p_regions_cover P :
  length P = 68%nat →
  ∃ d, (∀ st, Shape._make_dict Shape.Shape68p P st = (Ok d, st)) ∧
       dom d = {[ "jawline"; "eyebrow_right"; "eyebrow_left"; "nose_bridge";
                  "nose_tip"; "eye_right"; "eye_left"; "lips_top";
                  "lips_bottom" ]} ∧
       (∃ jaw ebr ebl bridge tip er el,
          d !! "jawline" = Some jaw ∧ d !! "eyebrow_right" = Some ebr ∧
          d !! "eyebrow_left" = Some ebl ∧ d !! "nose_bridge" = Some bridge ∧
          d !! "nose_tip" = Some tip ∧ d !! "eye_right" = Some er ∧
          d !! "eye_left" = Some el ∧
          jaw ++ ebr ++ ebl ++ bridge ++ tip ++ er ++ el = take 48 P) ∧
       (∃ top bottom,
          d !! "lips_top" = Some top ∧ d !! "lips_bottom" = Some bottom ∧
          Some <$> bottom =
            (λ i, P !! i) <$> [54; 55; 56; 57; 58; 59; 48; 60; 67; 66; 65; 64]%nat ∧
          ∀ x, x ∈ drop 48 P → x ∈ top ++ bottom).
Proof.
  intros Hlen.
  do 68 (destruct P as [|? P]; [discriminate Hlen|]).
  destruct P; [|discriminate Hlen]. clear Hlen.
  eexists. split; [intros st; reflexivity|]. split; [|split].
  - simpl. rewrite !dom_insert_L, dom_empty_L. set_solver.
  - eexists _, _, _, _, _, _, _. repeat split; reflexivity.
  - eexists _, _. split; [reflexivity|]. split; [reflexivity|].
    split; [reflexivity|].
    intros x Hx. simpl in Hx. cbn.
    repeat (apply elem_of_cons in Hx as [->|Hx];
            [repeat first [apply list_elem_of_here | apply list_elem_of_further]|]).
    by apply elem_of_nil in Hx.
Qed.

(** *** Drawing *)

(** [zip(l[:-1], l[1:])] pairs the element at [i] with the one at [i+1]. *)
Lemma consecutive_lookup {A} (l : list A) (i : nat) (a b : A) :
  Draw.consecutive l !! i = Some (a, b) ↔ l !! i = Some a ∧ l !! S i = Some b.
Proof.
  unfold Draw.consecutive, Draw.all_but_last. rewrite lookup_zip_with_Some.
  split.
  - intros (x & y & [= -> ->] & Hx & Hy).
    apply lookup_take_Some in Hx as [Hx _]. by rewrite lookup_drop in Hy.
  - intros [Ha Hb]. exists a, b. split; [done|]. split.
    + apply lookup_take_Some. split; [done|].
      apply lookup_lt_Some in Hb. lia.
    + by rewrite lookup_drop.
Qed.

Lemma segments_lookup (color : colour) (thick : Z) (r : list point) (i : nat)
    (call : cv2_call) :
  segments color thick r !! i = Some call ↔
  ∃ a b, r !! i = Some a ∧ r !! S i = Some b ∧ call = Cv2Line a b color thick.
Proof.
  unfold segments. rewrite list_lookup_fmap_Some. split.
  - intros ([a b] & -> & Hpr).
    apply consecutive_lookup in Hpr as [Ha Hb]. by exists a, b.
  - intros (a & b & Ha & Hb & ->). exists (a, b).
    split; [done|by apply consecutive_lookup].
Qed.


(** Lines that [cv2.line] accepts are all drawn. *)
Lemma lines_accepted (m : Mat) (pairs : list (point * point))
    (color : colour) (thick : Z) (cs : list cv2_call) :
  accepts_lines m color thick pairs →
  Draw.draw_pairs pairs color thick (Draw.Canvas m cs) =
  (Ok tt, Draw.Canvas m (cs ++ ((λ pr, Cv2Line pr.1 pr.2 color thick) <$> pairs))).
Proof.
  intros Hall. unfold Draw.draw_pairs, bind.
  assert (∀ cs, ∃ us,
    for_each (λ pr : point * point, Draw.line pr.1 pr.2 color thick) pairs
             (Draw.Canvas m cs) =
    (Ok us,
     Draw.Canvas m (cs ++ ((λ pr, Cv2Line pr.1 pr.2 color thick) <$> pairs))))
    as Hrun.
  { clear cs. induction Hall as [|pr pairs Hpr _ IH]; intros cs.
    - exists []. simpl. by rewrite app_nil_r.
    - destruct (IH (cs ++ [Cv2Line pr.1 pr.2 color thick])) as [us Hus].
      exists (tt :: us). rewrite for_each_cons. unfold bind at 1.
      unfold Draw.line at 1. cbn [Draw.mat Draw.drawn]. rewrite Hpr.
      unfold bind at 1. rewrite Hus. simpl. by rewrite <- app_assoc. }
  destruct (Hrun cs) as [us ->]. done.
Qed.

(** Whatever [cv2.line] accepts, a loop of lines draws a prefix of its
    lines and raises nothing of its own. *)
Lemma lines_any (pairs : list (point * point)) (color : colour) (thick : Z)
    (img : Draw.canvas) :
  draws img color thick ((λ pr, Cv2Line pr.1 pr.2 color thick) <$> pairs)
        (Draw.draw_pairs pairs color thick img).
Proof.
  destruct img as [m cs]. unfold Draw.draw_pairs, bind.
  assert (∀ cs,
    draws (Draw.Canvas m cs) color thick
          ((λ pr, Cv2Line pr.1 pr.2 color thick) <$> pairs)
          (for_each (λ pr : point * point, Draw.line pr.1 pr.2 color thick)
                    pairs (Draw.Canvas m cs))) as Hrun.
  { clear cs. induction pairs as [|pr pairs IH]; intros cs.
    - exists []. simpl. by rewrite app_nil_r.
    - rewrite for_each_cons. unfold bind at 1. unfold Draw.line at 1.
      cbn [Draw.mat Draw.drawn].
      destruct (line_error m pr.1 pr.2 color thick) as [e|] eqn:Hpr.
      + exists []. simpl. rewrite app_nil_r.
        split; [done|]. split; [apply prefix_nil|]. by exists pr.1, pr.2.
      + destruct (IH (cs ++ [Cv2Line pr.1 pr.2 color thick]))
          as (calls & Hst & Hpre & Hres).
        exists (Cv2Line pr.1 pr.2 color thick :: calls). unfold bind.
        destruct (for_each _ pairs _) as [[us|e] st2]; simpl in *.
        * subst. rewrite <- app_assoc. split; [done|].
          split; [by apply prefix_cons|by simpl].
        * subst. rewrite <- app_assoc. split; [done|].
          split; [by apply prefix_cons|done]. }
  destruct (Hrun cs) as (calls & Hst & Hpre & Hres).
  exists calls. destruct (for_each _ pairs _) as [[us|e] st2]; simpl in *; done.
Qed.



Lemma draw_regions_accepted (d : gmap string (list point)) (ks : list string)
    (color : colour) (thick : Z) (m : Mat) (cs : list cv2_call) :
  Forall (λ key, is_Some (d !! key) ∧ key ≠ "right_eye") ks →
  Forall (λ r, accepts_lines m color thick (Draw.consecutive r))
         ((λ key, default [] (d !! key)) <$> ks) →
  ∃ us,
    for_each (Draw.draw_region d color thick) ks (Draw.Canvas m cs) =
    (Ok us,
     Draw.Canvas m
       (cs ++ concat (segments color thick <$>
                        ((λ key, default [] (d !! key)) <$> ks)))).
Proof.
  intros Hks. revert cs.
  induction Hks as [|key ks [[region Hregion] Hne] _ IH]; intros cs Hacc.
  { exists []. simpl. by rewrite app_nil_r. }
  rewrite fmap_cons, Hregion in Hacc.
  change (default [] (Some region)) with region in Hacc.
  apply Forall_cons in Hacc as [Hacc1 Hacc2].
  destruct (IH (cs ++ segments color thick region) Hacc2) as (us & Hrun).
  exists (tt :: us).
  rewrite for_each_cons. unfold bind at 1.
  pose proof Hne as Hneb. apply String.eqb_neq in Hneb.
  unfold Draw.draw_region at 1, bind at 1, Draw.getitem at 1.
  rewrite Hregion, Hneb. unfold ret at 1.
  rewrite (lines_accepted _ _ _ _ _ Hacc1).
  fold (segments color thick region).
  unfold bind at 1. rewrite Hrun. simpl. rewrite Hregion. simpl.
  by rewrite <- app_assoc.
Qed.

Lemma keys_68p_fine s :
  Shape.class s = Shape.Shape68p →
  Forall (λ key, is_Some (Shape.dict s !! key) ∧ key ≠ "right_eye") (Draw.keys s).
Proof.
  intros Hcls. unfold Draw.keys. rewrite Hcls. apply Forall_forall.
  intros key Hkey. apply list_elem_of_filter in Hkey as [Hsome Hin].
  split; [done|]. intros ->. simpl in Hin.
  repeat (apply elem_of_cons in Hin as [Hin|Hin]; [discriminate Hin|]).
  by apply elem_of_nil in Hin.
Qed.

(** X9. On a 5-point shape as constructed, [_draw_lines] draws the path
    left eye (points 0 and 1), on to the nose (point 4), on to the right
    eye taken backwards (points 3, then 2), in the caller's colour and
    thickness; points beyond the fifth are not drawn.  If [cv2.line]
    accepts these four segments, exactly they are drawn and the method
    returns [None].  In any case what is drawn is the first segments of
    that path and nothing else, and an exception is one that [cv2.line]
    raised. *)
Theorem draw_lines_5p_path P st s st' (color : colour) (thick : Z)
    (img : Draw.canvas) :
  Shape.init Shape.Shape5p P st = (Ok s, st') →
  ∃ p0 p1 p2 p3 p4,
    take 5 P = [p0; p1; p2; p3; p4] ∧
    let path := [Cv2Line p0 p1 color thick; Cv2Line p1 p4 color thick;
                 Cv2Line p4 p3 color thick; Cv2Line p3 p2 color thick] in
    (accepts_lines (Draw.mat img) color thick
                   [(p0, p1); (p1, p4); (p4, p3); (p3, p2)] →
     Draw._draw_lines s color thick img =
       (Ok tt, Draw.Canvas (Draw.mat img) (Draw.drawn img ++ path))) ∧
    ∃ calls,
      (Draw._draw_lines s color thick img).2 =
        Draw.Canvas (Draw.mat img) (Draw.drawn img ++ calls) ∧
      calls `prefix_of` path ∧
      ((Draw._draw_lines s color thick img).1 = Ok tt → calls = path) ∧
      ∀ e, (Draw._draw_lines s color thick img).1 = Raise e →
           ∃ a b, line_error (Draw.mat img) a b color thick = Some e.
Proof.
  intros Hinit.
  destruct (init_ok_inv _ _ _ _ _ Hinit) as (Hlen & Hpts & Hcls & Hdict).
  simpl in Hlen.
  do 5 (destruct P as [|? P]; [simpl in Hlen; lia|]).
  eexists _, _, _, _, _. split; [reflexivity|].
  specialize (Hdict st). simpl in Hdict. injection Hdict as Hd.
  assert (Draw._draw_lines s color thick img =
          Draw.draw_pairs [(p, p0); (p0, p3); (p3, p2); (p2, p1)]
                          color thick img) as ->.
  { unfold Draw._draw_lines. rewrite Hcls, <- Hd.
    match goal with |- context [Draw.getitem ?m _] => set (d := m) end.
    assert (d !! "eye_left" = Some [p; p0]) as Hel by reflexivity.
    assert (d !! "nose" = Some [p3]) as Hnose by reflexivity.
    assert (d !! "eye_right" = Some [p1; p2]) as Her by reflexivity.
    clearbody d. unfold bind, Draw.getitem. rewrite Hel, Hnose, Her.
    reflexivity. }
  cbv zeta. split.
  - intros Hacc. destruct img as [m cs].
    by rewrite (lines_accepted _ _ _ _ _ Hacc).
  - destruct (lines_any [(p, p0); (p0, p3); (p3, p2); (p2, p1)] color thick img)
      as (calls & Hst & Hpre & Hres).
    exists calls. split; [done|]. split; [done|].
    destruct (Draw.draw_pairs _ color thick img) as [[[]|e] img1];
      simpl in *.
    + split; [done|]. by intros e.
    + split; [done|]. by intros e' [= <-].
Qed.


(** X11. On a 68-point shape as constructed from 68 points, when
    [cv2.line] accepts every segment, [_draw_lines] draws 63 lines: the
    nine regions of the dictionary, one after the other, each as an open
    polyline through its own points (its segment number [i] joins its
    points [i] and [i+1]); so no segment joins two regions and no region
    is closed. *)
Theorem draw_lines_68p_polylines P st s st' (color : colour) (thick : Z)
    (img : Draw.canvas) :
  length P = 68%nat →
  Shape.init Shape.Shape68p P st = (Ok s, st') →
  Forall (λ r, accepts_lines (Draw.mat img) color thick (Draw.consecutive r))
         (regions s) →
  Draw._draw_lines s color thick img =
    (Ok tt,
     Draw.Canvas (Draw.mat img)
       (Draw.drawn img ++ concat (segments color thick <$> regions s))) ∧
  Forall2 (λ key r, Shape.dict s !! key = Some r)
          (Draw.literal_keys Shape.Shape68p) (regions s) ∧
  Forall (λ r, ∀ i call,
            segments color thick r !! i = Some call ↔
            ∃ a b, r !! i = Some a ∧ r !! S i = Some b ∧
                   call = Cv2Line a b color thick) (regions s) ∧
  length (concat (segments color thick <$> regions s)) = 63%nat.
Proof.
  intros Hlen Hinit Hacc.
  destruct (init_ok_inv _ _ _ _ _ Hinit) as (_ & Hpts & Hcls & Hdict).
  split; [|split; [|split]].
  - destruct img as [m cs]. cbn [Draw.mat Draw.drawn] in *.
    destruct (draw_regions_accepted (Shape.dict s) (Draw.keys s) color thick
                m cs (keys_68p_fine s Hcls) Hacc) as (us & Hrun).
    unfold Draw._draw_lines. rewrite Hcls. unfold bind. by rewrite Hrun.
  - clear Hacc. unfold regions, Draw.keys. rewrite Hcls.
    do 68 (destruct P as [|? P]; [discriminate Hlen|]).
    destruct P; [|discriminate Hlen]. clear Hlen.
    specialize (Hdict st). simpl in Hdict. injection Hdict as Hd.
    rewrite <- Hd. repeat (constructor; [reflexivity|]). constructor.
  - apply Forall_forall. intros r _ i call. apply segments_lookup.
  - clear Hacc. unfold regions, Draw.keys. rewrite Hcls.
    do 68 (destruct P as [|? P]; [discriminate Hlen|]).
    destruct P; [|discriminate Hlen]. clear Hlen.
    specialize (Hdict st). simpl in Hdict. injection Hdict as Hd.
    rewrite <- Hd. vm_compute. reflexivity.
Qed.

End ShapeRegions.

(** ** The pipeline, end to end *)

Section PipelineRuns.
Context `{Dlib}.
Implicit Types (st : state) (c : Shape.cls) (img : Image) (m fd enc : Obj)
  (L : list location) (faces : list full_object_detection).

Lemma check_true (b : bool) (holds : Is_true b) : check b = Some holds.
Proof. destruct b; [by destruct holds|destruct holds]. Qed.

Lemma rect_of_tuple_of_rect (r : rectangle) :
  _tuple_to_rect (_rect_to_tuple r) = Ok r.
Proof.
  destruct r as [l t r b fits]. unfold _rect_to_tuple, _tuple_to_rect.
  simpl. by rewrite (check_true _ fits).
Qed.

Lemma tuple_of_rect_of_tuple (t : location) (r : rectangle) :
  _tuple_to_rect t = Ok r → _rect_to_tuple r = t.
Proof.
  destruct t as [[[l t] rt] b]. unfold _tuple_to_rect.
  destruct (check (are_longs l t rt b)); [|discriminate].
  by intros [= <-].
Qed.

Lemma tuple_to_rect_rejects (l t r b : Z) :
  are_longs l t r b = false →
  _tuple_to_rect (l, t, r, b) =
  Raise (Exn TypeError "__init__(): incompatible constructor arguments").
Proof.
  intros Hno. unfold _tuple_to_rect.
  destruct (check (are_longs l t r b)) as [fits|]; [|done].
  exfalso. revert fits. rewrite Hno. intros [].
Qed.

(** X12. A rectangle turned into a tuple and back is the same rectangle.
    A tuple that [_tuple_to_rect] accepts gives a rectangle that turns
    back into that tuple.  A tuple with a coordinate that does not fit a
    C [long] is rejected with a [TypeError]. *)
Theorem rect_tuple_roundtrip :
  (∀ r : rectangle, _tuple_to_rect (_rect_to_tuple r) = Ok r) ∧
  (∀ (t : location) (r : rectangle),
     _tuple_to_rect t = Ok r → _rect_to_tuple r = t) ∧
  (∀ l t r b : Z,
     are_longs l t r b = false →
     ∃ e, _tuple_to_rect (l, t, r, b) = Raise e ∧ isinstance e TypeError = true).
Proof.
  split; [apply rect_of_tuple_of_rect|]. split; [apply tuple_of_rect_of_tuple|].
  intros l t r b Hno. eexists. split; [by apply tuple_to_rect_rejects|done].
Qed.

Lemma rects_roundtrip (rects : list rectangle) :
  _tuple_to_rect <$> (_rect_to_tuple <$> rects) = Ok <$> rects.
Proof.
  induction rects as [|r rects IH]; [done|].
  rewrite !fmap_cons, rect_of_tuple_of_rect. by f_equal.
Qed.

Lemma rects_locations (rects : list rectangle) :
  Forall2 (λ loc r, _tuple_to_rect loc = Ok r) (_rect_to_tuple <$> rects) rects.
Proof.
  induction rects as [|r rects IH]; [constructor|].
  rewrite fmap_cons. constructor; [apply rect_of_tuple_of_rect|done].
Qed.

(** X13. With the detector bound to [fd]: if [fd] returns rectangles,
    [detect] returns one tuple per rectangle, in the detector's order, each
    converting back to its rectangle (none for an image without faces); if
    [fd] raises, [detect] raises the same exception.  Either way [fd] is
    invoked once, with the caller's [upsample], and the store is as the
    binding left it. *)
Theorem detect_returns_detected img (u : Z) st fd st1 :
  LazyStore.get "face_detector" st = (Ok fd, st1) →
  let st' := State (lazy_vars st1) (world st1)
                   (trace st1 ++ [EvDetector fd img u]) in
  (∀ rects, call_detector fd img u = Ok rects →
     ∃ locs, detect img u st = (Ok locs, st') ∧
             _tuple_to_rect <$> locs = Ok <$> rects ∧
             length locs = length rects) ∧
  (∀ e, call_detector fd img u = Raise e → detect img u st = (Raise e, st')).
Proof.
  intros Hget st'. split.
  - intros rects Hrects. exists (_rect_to_tuple <$> rects).
    rewrite (detect_after_get _ _ _ _ _ Hget), Hrects.
    split; [done|]. split; [apply rects_roundtrip|apply length_fmap].
  - intros e He. by rewrite (detect_after_get _ _ _ _ _ Hget), He.
Qed.

(** The predictor run over locations whose rectangles are [rects] and at
    which it returns [faces]. *)
Lemma for_each_predict_faces m img L (rects : list rectangle) faces st :
  Forall2 (λ loc r, _tuple_to_rect loc = Ok r) L rects →
  Forall2 (λ r face, call_predictor m img r = Ok face) rects faces →
  for_each (λ loc, predict (Some m) img loc) L st =
    (Ok faces,
     State (lazy_vars st) (world st)
           (trace st ++ (EvPredictor m img <$> rects))).
Proof.
  intros Hrects. revert faces st.
  induction Hrects as [|loc r L rects Hr _ IH]; intros faces st Hfaces.
  { inversion Hfaces. simpl. rewrite app_nil_r. by destruct st. }
  inversion Hfaces as [|? face ? faces' Hface Hrest]; subst.
  rewrite for_each_cons. unfold bind at 1.
  rewrite (predict_ok _ _ _ _ _ _ Hr Hface). unfold bind at 1.
  rewrite (IH _ _ Hrest). simpl. by rewrite <- app_assoc.
Qed.

(** The predictor run over locations of which one makes it raise, or is
    no rectangle. *)
Lemma for_each_predict_raise m img L1 (loc : location) L2
    (rects : list rectangle) faces (r : rectangle) (e : exn) st :
  Forall2 (λ loc r, _tuple_to_rect loc = Ok r) L1 rects →
  Forall2 (λ r face, call_predictor m img r = Ok face) rects faces →
  _tuple_to_rect loc = Ok r →
  call_predictor m img r = Raise e →
  for_each (λ loc, predict (Some m) img loc) (L1 ++ loc :: L2) st =
    (Raise e,
     State (lazy_vars st) (world st)
           (trace st ++ (EvPredictor m img <$> rects ++ [r]))).
Proof.
  intros Hrects. revert faces st.
  induction Hrects as [|loc1 r1 L1 rects Hr1 _ IH]; intros faces st Hfaces Hr He.
  - simpl. unfold bind at 1. unfold predict, bind at 1, lift. rewrite Hr.
    unfold call_model, bind, emit, lift. by rewrite He.
  - inversion Hfaces as [|? face ? faces' Hface Hrest]; subst.
    rewrite <- app_comm_cons, for_each_cons. unfold bind at 1.
    rewrite (predict_ok _ _ _ _ _ _ Hr1 Hface). unfold bind at 1.
    rewrite (IH _ _ Hrest Hr He). simpl. by rewrite <- app_assoc.
Qed.

Lemma for_each_predict_reject m img L1 (loc : location) L2
    (rects : list rectangle) faces (e : exn) st :
  Forall2 (λ loc r, _tuple_to_rect loc = Ok r) L1 rects →
  Forall2 (λ r face, call_predictor m img r = Ok face) rects faces →
  _tuple_to_rect loc = Raise e →
  for_each (λ loc, predict (Some m) img loc) (L1 ++ loc :: L2) st =
    (Raise e,
     State (lazy_vars st) (world st)
           (trace st ++ (EvPredictor m img <$> rects))).
Proof.
  intros Hrects. revert faces st.
  induction Hrects as [|loc1 r1 L1 rects Hr1 _ IH]; intros faces st Hfaces He.
  - simpl. unfold bind at 1. unfold predict, bind at 1, lift. rewrite He.
    rewrite app_nil_r. by destruct st.
  - inversion Hfaces as [|? face ? faces' Hface Hrest]; subst.
    rewrite <- app_comm_cons, for_each_cons. unfold bind at 1.
    rewrite (predict_ok _ _ _ _ _ _ Hr1 Hface). unfold bind at 1.
    rewrite (IH _ _ Hrest He). simpl. by rewrite <- app_assoc.
Qed.

(** [landmark] on given locations, once the placeholder shape has bound
    the predictor. *)
Lemma landmark_bound img L c (u : Z) (key : string) m st st1 :
  Shape.predictor_key c = Some key →
  LazyStore.get key st = (Ok m, st1) →
  landmark img (Some L) c u st =
  (let* shapelist := for_each (λ loc, predict (Some m) img loc) L in
   for_each (λ face, Shape.init c (coords face)) shapelist) st1.
Proof.
  intros Hkey Hget. destruct (shaper_unfold c) as [d0 Hshaper].
  rewrite landmark_unfold. unfold bind at 1. rewrite Hshaper.
  unfold bind at 1. rewrite (bind_model_ok _ _ _ _ _ Hkey Hget).
  unfold ret at 1. cbv beta iota. by cbn [Shape.model].
Qed.

Lemma landmark_run img L c (u : Z) (key : string) m st st1
    (rects : list rectangle) faces :
  Shape.predictor_key c = Some key →
  LazyStore.get key st = (Ok m, st1) →
  Forall2 (λ loc r, _tuple_to_rect loc = Ok r) L rects →
  Forall2 (λ r face, call_predictor m img r = Ok face) rects faces →
  Forall (λ face, (min_points c ≤ length (parts face))%nat) faces →
  ∃ shapes,
    landmark img (Some L) c u st =
      (Ok shapes,
       State (lazy_vars st1) (world st1)
             (trace st1 ++ (EvPredictor m img <$> rects))) ∧
    Forall2 (λ face s, Shape.points s = coords face ∧ Shape.class s = c ∧
                       Shape.model s = Some m) faces shapes.
Proof.
  intros Hkey Hget Hrects Hfaces Hlong.
  pose proof (get_ok_cached _ _ _ _ Hget) as Hcached.
  set (st2 := State (lazy_vars st1) (world st1)
    (trace st1 ++ (EvPredictor m img <$> rects))).
  destruct (for_each_init_cached c key m faces st2 Hkey Hcached Hlong)
    as (shapes & Hshapes & Hrel).
  exists shapes. split; [|done].
  rewrite (landmark_bound _ _ _ _ _ _ _ _ Hkey Hget). unfold bind at 1.
  by rewrite (for_each_predict_faces _ _ _ _ _ _ Hrects Hfaces).
Qed.

(** X14. [landmark] without locations, end to end.  Let the detector [fd]
    return [rects], let the predictor of the class then bind to [m], and
    let [m] return at these rectangles the detections [faces], each with
    enough parts.  Then [landmark(img)] returns one shape per detected
    rectangle, in the detector's order, holding the points predicted
    there; and [m] was invoked on exactly the rectangles detected: the
    conversion to tuples and back loses nothing. *)
Theorem landmark_detects_then_predicts img c (u : Z) (key : string)
    fd m st st1 st2 (rects : list rectangle) faces :
  Shape.predictor_key c = Some key →
  LazyStore.get "face_detector" st = (Ok fd, st1) →
  call_detector fd img u = Ok rects →
  LazyStore.get key
    (State (lazy_vars st1) (world st1) (trace st1 ++ [EvDetector fd img u])) =
    (Ok m, st2) →
  Forall2 (λ r face, call_predictor m img r = Ok face ∧
                     (min_points c ≤ length (parts face))%nat) rects faces →
  ∃ shapes st',
    landmark img None c u st = (Ok shapes, st') ∧
    Forall2 (λ face s, Shape.points s = coords face ∧ Shape.class s = c)
            faces shapes ∧
    trace st' = trace st2 ++ (EvPredictor m img <$> rects).
Proof.
  intros Hkey Hfd Hrects Hget Hfaces.
  assert (landmark img None c u st =
    (let* locs := detect img u in landmark img (Some locs) c u) st) as ->
    by reflexivity.
  unfold bind at 1. rewrite (detect_after_get _ _ _ _ _ Hfd), Hrects.
  destruct (landmark_run img (_rect_to_tuple <$> rects) c u key m _ st2
              rects faces Hkey Hget (rects_locations rects))
    as (shapes & Hrun & Hrel).
  { eapply Forall2_impl; [exact Hfaces|]. by intros r face [Hface _]. }
  { clear -Hfaces. induction Hfaces as [|r face rects faces [_ Hlen] _ IH];
      by constructor. }
  eexists shapes, _. split; [exact Hrun|]. split; [|done].
  eapply Forall2_impl; [exact Hrel|]. by intros face s (? & ? & _).
Qed.

Lemma encode_unfold img L c (j : Z) st :
  encode img (Some L) c j st =
  (let* shaper := Shape.init c range68 in
   let* face_encoder := LazyStore.get "face_encoder" in
   let* shapelist := for_each (λ loc, predict (Shape.model shaper) img loc) L in
   for_each (λ shape,
       run emit (EvEncoder face_encoder img shape j) in
       lift (compute_face_descriptor face_encoder img shape j))
     shapelist) st.
Proof. reflexivity. Qed.

(** The encoder run over detections at which it returns [ds]. *)
Lemma for_each_encoder enc img (j : Z) faces (ds : list Descriptor) st :
  Forall2 (λ face d, compute_face_descriptor enc img face j = Ok d) faces ds →
  for_each (λ shape,
      run emit (EvEncoder enc img shape j) in
      lift (compute_face_descriptor enc img shape j)) faces st =
    (Ok ds,
     State (lazy_vars st) (world st)
           (trace st ++ ((λ face, EvEncoder enc img face j) <$> faces))).
Proof.
  intros Hall. revert st.
  induction Hall as [|face d faces ds Hd _ IH]; intros st.
  { simpl. rewrite app_nil_r. by destruct st. }
  rewrite for_each_cons. unfold bind at 1. unfold bind at 1.
  unfold emit at 1. unfold lift at 1. rewrite Hd.
  unfold bind at 1. rewrite IH. simpl. by rewrite <- app_assoc.
Qed.

(** X15. [encode] on given locations.  Let the predictor of the class bind
    to [m] and the face encoder to [enc], let every location of [L] be
    four integers that [dlib.rectangle] accepts, giving the rectangles
    [rects], let [m] return the detections [faces] at them, and let [enc]
    return the descriptors [ds] on those.  Then [encode] returns [ds]: one
    descriptor per location, in the order of [L].  It first invokes the
    predictor at every rectangle and only then the encoder on every
    detection, with the caller's [jitter]; no Shape is built from the
    predictions. *)
Theorem encode_one_descriptor_per_location img L c (j : Z) (key : string)
    m enc st st1 st2 (rects : list rectangle) faces (ds : list Descriptor) :
  Shape.predictor_key c = Some key →
  LazyStore.get key st = (Ok m, st1) →
  LazyStore.get "face_encoder" st1 = (Ok enc, st2) →
  Forall2 (λ loc r, _tuple_to_rect loc = Ok r) L rects →
  Forall2 (λ r face, call_predictor m img r = Ok face) rects faces →
  Forall2 (λ face d, compute_face_descriptor enc img face j = Ok d) faces ds →
  encode img (Some L) c j st =
    (Ok ds,
     State (lazy_vars st2) (world st2)
           (trace st2 ++
            (EvPredictor m img <$> rects) ++
            ((λ face, EvEncoder enc img face j) <$> faces))) ∧
  length ds = length L.
Proof.
  intros Hkey Hget Henc Hrects Hfaces Hds. split.
  - destruct (shaper_unfold c) as [d0 Hshaper].
    rewrite encode_unfold. unfold bind at 1. rewrite Hshaper.
    unfold bind at 1. rewrite (bind_model_ok _ _ _ _ _ Hkey Hget).
    unfold ret at 1. cbv beta iota. cbn [Shape.model].
    unfold bind at 1. rewrite Henc. unfold bind at 1.
    rewrite (for_each_predict_faces _ _ _ _ _ _ Hrects Hfaces).
    rewrite (for_each_encoder _ _ _ _ _ _ Hds). simpl.
    by rewrite <- app_assoc.
  - rewrite <- (Forall2_length _ _ _ Hds), <- (Forall2_length _ _ _ Hfaces).
    symmetry. exact (Forall2_length _ _ _ Hrects).
Qed.

(** X16. [landmark] stops at the first location that fails.  Let the
    locations before it be rectangles at which the predictor returns.  If
    the predictor raises at the rectangle of that location, or if the
    location is no rectangle for [dlib.rectangle], the exception is the
    caller's; the predictor has been invoked on the rectangles up to that
    point (the failing rectangle included, the rejected tuple not) and on
    none after it; and no Shape has been built, not even for the locations
    that succeeded. *)
Theorem landmark_stops_at_first_failure img L1 (loc : location) L2 c (u : Z)
    (key : string) m st st1 (rects : list rectangle) faces :
  Shape.predictor_key c = Some key →
  LazyStore.get key st = (Ok m, st1) →
  Forall2 (λ loc r, _tuple_to_rect loc = Ok r) L1 rects →
  Forall2 (λ r face, call_predictor m img r = Ok face) rects faces →
  (∀ (r : rectangle) (e : exn),
     _tuple_to_rect loc = Ok r → call_predictor m img r = Raise e →
     landmark img (Some (L1 ++ loc :: L2)) c u st =
       (Raise e,
        State (lazy_vars st1) (world st1)
              (trace st1 ++ (EvPredictor m img <$> rects ++ [r])))) ∧
  (∀ e : exn,
     _tuple_to_rect loc = Raise e →
     landmark img (Some (L1 ++ loc :: L2)) c u st =
       (Raise e,
        State (lazy_vars st1) (world st1)
              (trace st1 ++ (EvPredictor m img <$> rects)))).
Proof.
  intros Hkey Hget Hrects Hfaces. split.
  - intros r e Hr He.
    rewrite (landmark_bound _ _ _ _ _ _ _ _ Hkey Hget). unfold bind at 1.
    by rewrite (for_each_predict_raise _ _ _ _ _ _ _ _ _ _ Hrects Hfaces Hr He).
  - intros e He.
    rewrite (landmark_bound _ _ _ _ _ _ _ _ Hkey Hget). unfold bind at 1.
    by rewrite (for_each_predict_reject _ _ _ _ _ _ _ _ _ Hrects Hfaces He).
Qed.

(** X17. With the base class [Shape] as model there is no predictor:
    [landmark] returns the empty list for an empty list of locations and
    raises [TypeError] for any other, at its first location: from
    [dlib.rectangle] if that location is no rectangle, and otherwise
    because [None] is not callable.  In every case neither the registry
    nor anything else is touched. *)
Theorem landmark_base_class img L (u : Z) st :
  landmark img (Some L) Shape.Shape u st =
    (match L with
     | [] => Ok []
     | loc :: _ =>
         match _tuple_to_rect loc with
         | Ok _ => Raise (Exn TypeError "'NoneType' object is not callable")
         | Raise e => Raise e
         end
     end, st) ∧
  (L ≠ [] → ∃ msg, (landmark img (Some L) Shape.Shape u st).1 =
                   Raise (Exn TypeError msg)).
Proof.
  assert (landmark img (Some L) Shape.Shape u st =
    (match L with
     | [] => Ok []
     | loc :: _ =>
         match _tuple_to_rect loc with
         | Ok _ => Raise (Exn TypeError "'NoneType' object is not callable")
         | Raise e => Raise e
         end
     end, st)) as Hrun.
  { destruct L as [|loc L]; [done|].
    rewrite landmark_unfold. unfold bind at 1.
    change (Shape.init Shape.Shape range68 st)
      with (Ok (Shape.Make range68 ∅ None Shape.Shape), st).
    cbv beta iota. cbn [Shape.model]. rewrite for_each_cons.
    unfold bind at 1. unfold bind at 1. unfold predict, bind at 1, lift.
    by destruct (_tuple_to_rect loc). }
  split; [exact Hrun|]. intros Hne. rewrite Hrun.
  destruct L as [|[[[l t] r] b] L]; [done|]. simpl.
  unfold _tuple_to_rect. destruct (check (are_longs l t r b)); by eexists.
Qed.

(** *** What the pipeline leaves alone *)

Lemma touches_ret {A} ks (a : A) : touches_only ks (ret a).
Proof. by intros st. Qed.

Lemma touches_raise {A} ks cls msg : touches_only ks (@raise state A cls msg).
Proof. by intros st. Qed.

Lemma touches_lift {A} ks (o : outcome A) : touches_only ks (lift o).
Proof. by intros st. Qed.

Lemma touches_emit ks e : touches_only ks (emit e).
Proof. by intros st. Qed.

Lemma touches_bind {A B} ks (m : M state A) (k : A → M state B) :
  touches_only ks m → (∀ a, touches_only ks (k a)) → touches_only ks (bind m k).
Proof.
  intros Hm Hk st. unfold bind. destruct (Hm st) as [Hr Hd].
  destruct (m st) as [[a|e] st1]; simpl in *; [|done].
  destruct (Hk a st1) as [Hr' Hd']. split; [congruence|].
  intros j Hj. by rewrite Hd', Hd.
Qed.

Lemma touches_get ks (k : string) : k ∈ ks → touches_only ks (LazyStore.get k).
Proof.
  intros Hk st. split; [apply get_reg|]. intros j Hj.
  apply get_dict_other. by intros ->.
Qed.

Lemma touches_for_each {A B} ks (f : A → M state B) (xs : list A) :
  (∀ a, touches_only ks (f a)) → touches_only ks (for_each f xs).
Proof.
  intros Hf. induction xs as [|a xs IH]; simpl; [apply touches_ret|].
  apply touches_bind; [done|]. intros b.
  apply touches_bind; [done|]. intros bs. apply touches_ret.
Qed.

Lemma touches_call_model ks (o : option Obj) img (r : rectangle) :
  touches_only ks (call_model o img r).
Proof.
  destruct o; simpl; [|apply touches_raise].
  apply touches_bind; [apply touches_emit|]. intros _. apply touches_lift.
Qed.

Lemma touches_predict ks (o : option Obj) img (loc : location) :
  touches_only ks (predict o img loc).
Proof.
  unfold predict. apply touches_bind; [apply touches_lift|].
  intros r. apply touches_call_model.
Qed.

Lemma touches_init ks c (P : list point) :
  predictor_keys c ⊆ ks → touches_only ks (Shape.init c P).
Proof.
  intros Hks. unfold Shape.init. apply touches_bind.
  - destruct c; simpl; [apply touches_ret| |];
      repeat (apply touches_bind; [apply touches_lift|]; intros ?);
      apply touches_ret.
  - intros d. unfold predictor_keys in Hks.
    destruct (Shape.predictor_key c) as [key|]; [|apply touches_ret].
    apply touches_bind; [|intros m; apply touches_ret].
    apply touches_get, Hks. left.
Qed.

Lemma touches_detect ks img (u : Z) :
  "face_detector" ∈ ks → touches_only ks (detect img u).
Proof.
  intros Hks. unfold detect. apply touches_bind; [by apply touches_get|].
  intros fd. apply touches_bind; [|intros rects; apply touches_ret].
  apply touches_bind; [apply touches_emit|]. intros _. apply touches_lift.
Qed.

(** X18. [landmark] and [encode] register nothing, and the only cache
    entries they can change are those of the models they bind: the
    predictor of the chosen class, for [encode] the face encoder, and the
    face detector when locations are omitted.  Given locations, [landmark]
    leaves every entry but the predictor's as it was. *)
Theorem pipeline_touches_only_its_models img
    (locations : option (list location)) c (u j : Z) :
  touches_only ("face_detector" :: predictor_keys c)
               (landmark img locations c u) ∧
  touches_only ("face_detector" :: "face_encoder" :: predictor_keys c)
               (encode img locations c j) ∧
  (∀ L, touches_only (predictor_keys c) (landmark img (Some L) c u)).
Proof.
  assert (∀ ks locs, predictor_keys c ⊆ ks →
            (locs = None → "face_detector" ∈ ks) →
            touches_only ks (landmark img locs c u)) as Hland.
  { intros ks locs Hks Hdet. unfold landmark. apply touches_bind.
    - destruct locs; [apply touches_ret|]. by apply touches_detect, Hdet.
    - intros L. apply touches_bind; [by apply touches_init|]. intros shaper.
      apply touches_bind.
      + apply touches_for_each. intros loc. apply touches_predict.
      + intros faces. apply touches_for_each. intros face.
        by apply touches_init. }
  split; [|split].
  - apply Hland; [|intros _; left]. intros k Hk. by right.
  - unfold encode. apply touches_bind.
    + destruct locations; [apply touches_ret|]. apply touches_detect. left.
    + intros L. apply touches_bind.
      { apply touches_init. intros k Hk. by do 2 right. }
      intros shaper. apply touches_bind.
      { apply touches_get. right. left. }
      intros enc. apply touches_bind.
      * apply touches_for_each. intros loc. apply touches_predict.
      * intros faces. apply touches_for_each. intros face.
        apply touches_bind; [apply touches_emit|]. intros _. apply touches_lift.
  - intros L. by apply Hland.
Qed.

End PipelineRuns.

(** ** Atlas persistence *)

Section AtlasPersistence.
Implicit Types (a b : gmap string pyval) (d : disk) (s : Atlas.st) (p q : string).

(** X19. Saving twice is saving once: after a [save] that returned, a
    second [save] returns too and changes neither the Atlas nor the
    disk. *)
Theorem save_twice s s1 :
  Atlas.save s = (Ok tt, s1) → Atlas.save s1 = (Ok tt, s1).
Proof.
  destruct s as [a d]. intros Hsave.
  destruct (save_ok_inv a d s1 Hsave) as (p & Hp & ->).
  rewrite (save_at p) in Hsave by done.
  rewrite (save_at p) by done. simpl.
  destruct (decide (p ∈ unwritable d)); [discriminate|].
  by rewrite insert_insert_eq.
Qed.

(** X20. An Atlas that reloads what it has just saved is unchanged:
    [save] followed by [load] on the same object returns and leaves
    object and disk as [save] left them. *)
Theorem save_then_load_same_object s s1 :
  Atlas.save s = (Ok tt, s1) → Atlas.load s1 = (Ok tt, s1).
Proof.
  destruct s as [a d]. intros Hsave.
  destruct (save_ok_inv a d s1 Hsave) as (p & Hp & ->).
  apply (load_snapshot a a _ p); [done|]. simpl. apply lookup_insert_eq.
Qed.

(** X21. [load] validates nothing: whenever the file at the Atlas's path
    holds the pickle of a dictionary, [load] returns and the attributes of
    the Atlas are exactly the items of that dictionary.  No attribute from
    before the call survives unless the dictionary has it, [path]
    included. *)
Theorem load_installs_any_dict s p (items : list (string * pyval)) :
  Atlas.self s !! "path" = Some (PStr p) →
  files (Atlas.dsk s) !! p = Some (Pickled (PDict items)) →
  NoDup items.*1 →
  Atlas.load s = (Ok tt, Atlas.St (list_to_map items) (Atlas.dsk s)).
Proof.
  intros Hp Hf Hnodup. rewrite (load_at p (Pickled (PDict items))) by done.
  rewrite dict_update_dict, foldl_insert_list_to_map. do 2 f_equal.
  apply list_to_map_proper.
  - by rewrite fmap_reverse, reverse_Permutation.
  - apply reverse_Permutation.
Qed.

(** X24. Atomicity ends where deserialization ends.  When the file at the
    Atlas's path holds the pickle of [None], of a boolean or of a number,
    [pickle.load] returns, the attributes are cleared, and only then
    [update] raises a [TypeError]: the Atlas is left without any
    attribute, [path] included, and the disk as it was. *)
Theorem load_clears_before_update s p (v : pyval) :
  Atlas.self s !! "path" = Some (PStr p) →
  files (Atlas.dsk s) !! p = Some (Pickled v) →
  not_iterable v = true →
  ∃ e, isinstance e TypeError = true ∧
       Atlas.load s = (Raise e, Atlas.St ∅ (Atlas.dsk s)).
Proof.
  intros Hp Hf Hv. rewrite (load_at p (Pickled v)) by done.
  exists (Exn TypeError "object is not iterable").
  split; [done|]. by destruct v.
Qed.

(** *** What never reaches the disk *)

Lemma keeps_ret {A} (x : A) : keeps_disk (ret x).
Proof. by intros s. Qed.

Lemma keeps_raise {A} cls msg : keeps_disk (@raise Atlas.st A cls msg).
Proof. by intros s. Qed.

Lemma keeps_lift {A} (o : outcome A) : keeps_disk (lift o).
Proof. by intros s. Qed.

Lemma keeps_bind {A B} (m : M Atlas.st A) (k : A → M Atlas.st B) :
  keeps_disk m → (∀ x, keeps_disk (k x)) → keeps_disk (bind m k).
Proof.
  intros Hm Hk s. unfold bind. pose proof (Hm s) as H1.
  destruct (m s) as [[x|e] s1]; simpl in *; [|done].
  by rewrite Hk.
Qed.

Lemma keeps_for_each {A B} (f : A → M Atlas.st B) (xs : list A) :
  (∀ x, keeps_disk (f x)) → keeps_disk (for_each f xs).
Proof.
  intros Hf. induction xs as [|x xs IH]; simpl; [apply keeps_ret|].
  apply keeps_bind; [done|]. intros y.
  apply keeps_bind; [done|]. intros ys. apply keeps_ret.
Qed.

Lemma keeps_setattr (name : string) (v : pyval) :
  keeps_disk (Atlas.setattr name v).
Proof. by intros s. Qed.

Lemma keeps_dict_update (v : pyval) : keeps_disk (Atlas.dict_update v).
Proof.
  destruct v as [| | | |str|l|items|cls params]; simpl;
    try apply keeps_raise.
  - destruct str; [apply keeps_ret|apply keeps_raise].
  - apply keeps_bind; [|intros _; apply keeps_ret].
    apply keeps_for_each. intros item. unfold Atlas.update_item.
    apply keeps_bind; [apply keeps_lift|]. intros kv.
    destruct kv.1; try apply keeps_ret; try apply keeps_raise.
    apply keeps_setattr.
  - apply keeps_bind; [|intros _; apply keeps_ret].
    apply keeps_for_each. intros kv. apply keeps_setattr.
Qed.

Lemma keeps_load : keeps_disk Atlas.load.
Proof.
  unfold Atlas.load.
  apply keeps_bind.
  { intros s. unfold Atlas.getattr. by destruct (Atlas.self s !! "path"). }
  intros v. apply keeps_bind.
  { destruct v; simpl; try apply keeps_raise. apply keeps_ret. }
  intros p. apply keeps_bind.
  { intros s. unfold Atlas.open_rb. by destruct (files (Atlas.dsk s) !! p). }
  intros f. apply keeps_bind.
  { destruct f; [apply keeps_ret|apply keeps_lift]. }
  intros v'. apply keeps_bind; [by intros s|].
  intros _. apply keeps_dict_update.
Qed.

(** X22. [load] and [group] never write: whatever they do to the Atlas,
    and whether or not they raise, the disk is as before.  [save] never
    changes the Atlas, and on the disk it can change nothing but the file
    at the Atlas's own path. *)
Theorem disk_frame s :
  Atlas.dsk (Atlas.load s).2 = Atlas.dsk s ∧
  (Atlas.group s).2 = s ∧
  Atlas.self (Atlas.save s).2 = Atlas.self s ∧
  unwritable (Atlas.dsk (Atlas.save s).2) = unwritable (Atlas.dsk s) ∧
  (∀ q, Atlas.self s !! "path" ≠ Some (PStr q) →
     files (Atlas.dsk (Atlas.save s).2) !! q = files (Atlas.dsk s) !! q).
Proof.
  split; [apply keeps_load|]. split; [done|].
  destruct s as [a d]. destruct (a !! "path") as [v|] eqn:Hv.
  2:{ unfold Atlas.save, bind, Atlas.getattr. simpl. by rewrite Hv. }
  destruct v as [| | | |p| | |];
    try (unfold Atlas.save, bind, Atlas.getattr; simpl; by rewrite Hv).
  rewrite (save_at p) by done.
  destruct (decide (p ∈ unwritable d)); [done|]. simpl.
  split; [done|]. split; [done|].
  intros q Hq. rewrite lookup_insert_ne; [done|]. intros ->.
  by rewrite Hv in Hq.
Qed.

End AtlasPersistence.

(** ** Models are loaded once *)

Section WarmRegistry.
Context `{Dlib}.
Implicit Types (st : state) (c : Shape.cls) (img : Image) (key : string).

Lemma warm_ret {A} key (a : A) : warm key (ret a).
Proof. by intros st. Qed.

Lemma warm_raise {A} key cls msg : warm key (@raise state A cls msg).
Proof. by intros st. Qed.

Lemma warm_lift {A} key (o : outcome A) : warm key (lift o).
Proof. by intros st. Qed.

Lemma warm_emit key e : is_model_call e = true → warm key (emit e).
Proof.
  intros He st Hst. split; [done|]. simpl. unfold factory_events.
  rewrite filter_app, filter_cons_False, filter_nil, app_nil_r; [done|].
  rewrite He. simpl. auto.
Qed.

Lemma warm_bind {A B} key (m : M state A) (k : A → M state B) :
  warm key m → (∀ a, warm key (k a)) → warm key (bind m k).
Proof.
  intros Hm Hk st Hst. unfold bind. destruct (Hm st Hst) as [Hc Ht].
  destruct (m st) as [[a|e] st1]; simpl in *; [|done].
  destruct (Hk a st1 Hc) as [Hc' Ht']. split; [done|]. congruence.
Qed.

Lemma warm_for_each {A B} key (f : A → M state B) (xs : list A) :
  (∀ a, warm key (f a)) → warm key (for_each f xs).
Proof.
  intros Hf. induction xs as [|a xs IH]; simpl; [apply warm_ret|].
  apply warm_bind; [done|]. intros b.
  apply warm_bind; [done|]. intros bs. apply warm_ret.
Qed.

Lemma warm_get key : warm key (LazyStore.get key).
Proof. intros st [v Hv]. rewrite (get_cached _ _ _ Hv). split; by eauto. Qed.

Lemma warm_call_model key (o : option Obj) img (r : rectangle) :
  warm key (call_model o img r).
Proof.
  destruct o; simpl; [|apply warm_raise].
  apply warm_bind; [by apply warm_emit|]. intros _. apply warm_lift.
Qed.

Lemma warm_predict key (o : option Obj) img (loc : location) :
  warm key (predict o img loc).
Proof.
  unfold predict. apply warm_bind; [apply warm_lift|].
  intros r. apply warm_call_model.
Qed.

Lemma warm_init key c (P : list point) :
  Shape.predictor_key c = Some key → warm key (Shape.init c P).
Proof.
  intros Hkey. unfold Shape.init. rewrite Hkey. apply warm_bind.
  - destruct c; simpl; [apply warm_ret| |];
      repeat (apply warm_bind; [apply warm_lift|]; intros ?);
      apply warm_ret.
  - intros d. apply warm_bind; [apply warm_get|]. intros m. apply warm_ret.
Qed.

Lemma warm_landmark key img (L : list location) c (u : Z) :
  Shape.predictor_key c = Some key → warm key (landmark img (Some L) c u).
Proof.
  intros Hkey. unfold landmark. apply warm_bind; [apply warm_ret|].
  intros locs. apply warm_bind; [by apply warm_init|]. intros shaper.
  apply warm_bind.
  - apply warm_for_each. intros loc. apply warm_predict.
  - intros faces. apply warm_for_each. intros face. by apply warm_init.
Qed.

(** A [landmark] call that returned has left the predictor cached. *)
Lemma landmark_ok_cached key img (L : list location) c (u : Z) st shapes st' :
  Shape.predictor_key c = Some key →
  landmark img (Some L) c u st = (Ok shapes, st') →
  is_Some (dict (lazy_vars st') !! key).
Proof.
  intros Hkey Hrun.
  destruct (LazyStore.get key st) as [[m|e] st1] eqn:Hget.
  - rewrite (landmark_bound _ _ _ _ _ _ _ _ Hkey Hget) in Hrun.
    assert (warm key
      (let* shapelist := for_each (λ loc, predict (Some m) img loc) L in
       for_each (λ face, Shape.init c (coords face)) shapelist)) as Hwarm.
    { apply warm_bind.
      - apply warm_for_each. intros loc. apply warm_predict.
      - intros faces. apply warm_for_each. intros face. by apply warm_init. }
    destruct (Hwarm st1) as [Hc _].
    { rewrite (get_ok_cached _ _ _ _ Hget). by eexists. }
    by rewrite Hrun in Hc.
  - destruct (shaper_unfold c) as [d0 Hshaper].
    rewrite landmark_unfold in Hrun. unfold bind at 1 in Hrun.
    rewrite Hshaper in Hrun. unfold bind at 1, bind_model in Hrun.
    rewrite Hkey in Hrun. unfold bind at 1 in Hrun. rewrite Hget in Hrun.
    discriminate.
Qed.

(** X23. The predictor is loaded once for all calls: after a [landmark]
    call that returned, any further [landmark] call with the same class,
    on whatever image and locations, applies no recipe at all, and
    leaves the predictor cached. *)
Theorem landmark_again_loads_nothing (key : string) img (L : list location)
    c (u : Z) st shapes st' img' (L' : list location) (u' : Z) :
  Shape.predictor_key c = Some key →
  landmark img (Some L) c u st = (Ok shapes, st') →
  factory_events (trace (landmark img' (Some L') c u' st').2) =
    factory_events (trace st') ∧
  is_Some (dict (lazy_vars (landmark img' (Some L') c u' st').2) !! key).
Proof.
  intros Hkey Hrun.
  destruct (warm_landmark key img' L' c u' Hkey st') as [Hc Ht];
    [by eapply landmark_ok_cached|].
  done.
Qed.

End WarmRegistry.

(** ** Further concrete runs *)

Section MoreRuns.
Existing Instance toy.

Lemma cached_keys_are_registered_witness :
  is_Some (reg (lazy_vars (foldl store_step fresh_store toy_ops)) !! "spare").
Proof.
  apply (@cached_keys_are_registered toy 0%nat toy_ops "spare").
  exists 0%nat. vm_compute. reflexivity.
Defined.

Lemma cached_instance_is_stable_witness :
  dict (lazy_vars warm_state) !! "shape_predictor_68p" = Some 0%nat ∧
  LazyStore.get "shape_predictor_68p" (foldl store_step warm_state later_ops) =
    (Ok 0%nat, foldl store_step warm_state later_ops).
Proof.
  assert (dict (lazy_vars warm_state) !! "shape_predictor_68p" = Some 0%nat)
    as Hwarm by (vm_compute; reflexivity).
  split; [exact Hwarm|].
  exact (cached_instance_is_stable warm_state later_ops "shape_predictor_68p"
           0%nat Hwarm).
Defined.

Lemma failed_constructor_is_retried_witness :
  let run1 := LazyStore.get "face_encoder" broken_state in
  run1.1 = Raise (Exn RuntimeError "Unable to open file") ∧
  lazy_vars run1.2 = lazy_vars broken_state ∧
  world run1.2 = 0%nat ∧
  factory_calls "face_encoder" (trace (LazyStore.get "face_encoder" run1.2).2) =
    2%nat.
Proof.
  apply (failed_constructor_is_retried broken_state "face_encoder"
           (Recipe (λ _ _ w, (Raise (Exn RuntimeError "Unable to open file"), w))
                   ["missing.dat"] [])
           (Exn RuntimeError "Unable to open file") 0%nat); reflexivity.
Defined.

Lemma get_touches_only_its_key_witness :
  dict (lazy_vars (LazyStore.get "face_encoder" warm_state).2)
    !! "shape_predictor_68p" =
  dict (lazy_vars warm_state) !! "shape_predictor_68p".
Proof.
  destruct (get_touches_only_its_key "face_encoder" warm_state)
    as (_ & Hother & _).
  apply Hother. discriminate.
Defined.

Lemma register_then_get_witness :
  let st0 := (LazyStore.register "face_encoder" toy_nullary [] []
                toy_state).2 in
  world st0 = world toy_state ∧ trace st0 = trace toy_state ∧
  dict (lazy_vars st0) = dict (lazy_vars toy_state) ∧
  (LazyStore.get "face_encoder" st0).1 = Ok 0%nat ∧
  world (LazyStore.get "face_encoder" st0).2 = 1%nat ∧
  trace (LazyStore.get "face_encoder" st0).2 =
    trace toy_state ++ [EvFactory "face_encoder"].
Proof.
  apply (register_then_get toy_state "face_encoder" toy_nullary [] []
           0%nat 1%nat); reflexivity.
Defined.

Lemma shape5p_regions_witness :
  ∃ d, (∀ st, Shape._make_dict Shape.Shape5p range68 st = (Ok d, st)) ∧
       dom d = {[ "eye_left"; "eye_right"; "nose" ]} ∧
       ∃ eye_left eye_right nose,
         d !! "eye_left" = Some eye_left ∧
         d !! "eye_right" = Some eye_right ∧
         d !! "nose" = Some nose ∧
         eye_left ++ eye_right ++ nose = take 5 range68.
Proof. apply (shape5p_regions range68). vm_compute. lia. Defined.

Lemma shape68p_regions_cover_witness :
  ∃ d, (∀ st, Shape._make_dict Shape.Shape68p range68 st = (Ok d, st)) ∧
       dom d = {[ "jawline"; "eyebrow_right"; "eyebrow_left"; "nose_bridge";
                  "nose_tip"; "eye_right"; "eye_left"; "lips_top";
                  "lips_bottom" ]} ∧
       (∃ jaw ebr ebl bridge tip er el,
          d !! "jawline" = Some jaw ∧ d !! "eyebrow_right" = Some ebr ∧
          d !! "eyebrow_left" = Some ebl ∧ d !! "nose_bridge" = Some bridge ∧
          d !! "nose_tip" = Some tip ∧ d !! "eye_right" = Some er ∧
          d !! "eye_left" = Some el ∧
          jaw ++ ebr ++ ebl ++ bridge ++ tip ++ er ++ el = take 48 range68) ∧
       (∃ top bottom,
          d !! "lips_top" = Some top ∧ d !! "lips_bottom" = Some bottom ∧
          Some <$> bottom =
            (λ i, range68 !! i) <$>
              [54; 55; 56; 57; 58; 59; 48; 60; 67; 66; 65; 64]%nat ∧
          ∀ x, x ∈ drop 48 range68 → x ∈ top ++ bottom).
Proof. apply (shape68p_regions_cover range68). reflexivity. Defined.

Lemma toy_shape_built (c : Shape.cls) :
  Shape.init c range68 toy_state =
  (Ok (toy_shape c), (Shape.init c range68 toy_state).2).
Proof. apply run_eq. destruct c; vm_compute; reflexivity. Qed.

Lemma toy_cv2_accepts (color : colour) (pairs : list (point * point)) :
  @accepts_lines toy_cv2 tt color 2 pairs.
Proof. apply Forall_forall. intros pr _. reflexivity. Qed.

Lemma draw_lines_5p_path_witness :
  ∃ p0 p1 p2 p3 p4,
    take 5 range68 = [p0; p1; p2; p3; p4] ∧
    @Draw._draw_lines toy toy_cv2 (toy_shape Shape.Shape5p) (0, 255, 0) 2 blank =
      (Ok tt,
       @Draw.Canvas toy_cv2 tt
         [Cv2Line p0 p1 (0, 255, 0) 2; Cv2Line p1 p4 (0, 255, 0) 2;
          Cv2Line p4 p3 (0, 255, 0) 2; Cv2Line p3 p2 (0, 255, 0) 2]).
Proof.
  destruct (@draw_lines_5p_path toy toy_cv2 range68 toy_state
              (toy_shape Shape.Shape5p)
              (Shape.init Shape.Shape5p range68 toy_state).2
              (0, 255, 0) 2 blank (toy_shape_built Shape.Shape5p))
    as (p0 & p1 & p2 & p3 & p4 & Htake & Hdraw & _).
  exists p0, p1, p2, p3, p4. split; [exact Htake|].
  apply Hdraw. apply toy_cv2_accepts.
Defined.


Lemma draw_lines_68p_polylines_witness :
  let s := toy_shape Shape.Shape68p in
  @Draw._draw_lines toy toy_cv2 s (0, 255, 0) 2 blank =
    (Ok tt,
     @Draw.Canvas toy_cv2 tt
       ([] ++ concat (segments (0, 255, 0) 2 <$> @regions toy s))) ∧
  Forall2 (λ key r, Shape.dict s !! key = Some r)
          (Draw.literal_keys Shape.Shape68p) (@regions toy s) ∧
  Forall (λ r, ∀ i call,
            segments (0, 255, 0) 2 r !! i = Some call ↔
            ∃ a b, r !! i = Some a ∧ r !! S i = Some b ∧
                   call = Cv2Line a b (0, 255, 0) 2) (@regions toy s) ∧
  length (concat (segments (0, 255, 0) 2 <$> @regions toy s)) = 63%nat.
Proof.
  apply (@draw_lines_68p_polylines toy toy_cv2 range68 toy_state
           (toy_shape Shape.Shape68p)
           (Shape.init Shape.Shape68p range68 toy_state).2
           (0, 255, 0) 2 blank); [reflexivity| |].
  - exact (toy_shape_built Shape.Shape68p).
  - apply Forall_forall. intros r _. apply toy_cv2_accepts.
Defined.

(** With a thickness of zero, OpenCV refuses the first segment: nothing is
    drawn and [cv2.error] reaches the caller. *)
Lemma draw_lines_thickness_zero :
  @Draw._draw_lines toy toy_cv2 (toy_shape Shape.Shape68p) (0, 255, 0) 0 blank =
  (Raise (Exn Cv2Error "0 < thickness && thickness <= MAX_THICKNESS"), blank).
Proof. vm_compute. reflexivity. Qed.

End MoreRuns.

Section PipelineWitnesses.
Existing Instance toy.

Lemma toy_detector_bound :
  LazyStore.get "face_detector" toy_state =
  (Ok 0%nat, (LazyStore.get "face_detector" toy_state).2).
Proof. apply run_eq. vm_compute. reflexivity. Qed.

Lemma toy_predictor_bound :
  LazyStore.get "shape_predictor_68p" toy_state =
  (Ok 0%nat, (LazyStore.get "shape_predictor_68p" toy_state).2).
Proof. apply run_eq. vm_compute. reflexivity. Qed.

Lemma detect_returns_detected_witness :
  let st1 := (LazyStore.get "face_detector" toy_state).2 in
  ∃ locs,
    detect toy_img 1 toy_state =
      (Ok locs, State (lazy_vars st1) (world st1)
                      (trace st1 ++ [@EvDetector toy 0%nat toy_img 1])) ∧
    _tuple_to_rect <$> locs = Ok <$> [toy_rect] ∧ length locs = 1%nat.
Proof.
  destruct (detect_returns_detected toy_img 1 toy_state 0%nat _
              toy_detector_bound) as [Hok _].
  apply (Hok [toy_rect]). reflexivity.
Defined.

Lemma rect_tuple_roundtrip_witness :
  _tuple_to_rect (_rect_to_tuple toy_rect) = Ok toy_rect ∧
  _rect_to_tuple toy_rect2 = (5, 5, 20, 20)%Z ∧
  ∃ e, _tuple_to_rect huge_location = Raise e ∧ isinstance e TypeError = true.
Proof.
  destruct rect_tuple_roundtrip as (Hback & Hforth & Hreject).
  split; [apply Hback|]. split.
  - apply (Hforth (5, 5, 20, 20)%Z toy_rect2). reflexivity.
  - apply (Hreject (2 ^ 63)%Z 0%Z 1%Z 1%Z). vm_compute. reflexivity.
Defined.

Lemma landmark_detects_then_predicts_witness :
  ∃ shapes st',
    landmark toy_img None Shape.Shape68p 1 toy_state = (Ok shapes, st') ∧
    Forall2 (λ face s, Shape.points s = coords face ∧
                       Shape.class s = Shape.Shape68p)
            [toy_face toy_rect] shapes ∧
    model_calls (trace st') =
      [@EvDetector toy 0%nat toy_img 1; @EvPredictor toy 1%nat toy_img toy_rect].
Proof.
  set (st1 := (LazyStore.get "face_detector" toy_state).2).
  set (st1' := State (lazy_vars st1) (world st1)
                     (trace st1 ++ [@EvDetector toy 0%nat toy_img 1])).
  assert (LazyStore.get "shape_predictor_68p" st1' =
          (Ok 1%nat, (LazyStore.get "shape_predictor_68p" st1').2)) as Hget
    by (apply run_eq; vm_compute; reflexivity).
  destruct (landmark_detects_then_predicts toy_img Shape.Shape68p 1
              "shape_predictor_68p" 0%nat 1%nat toy_state st1 _
              [toy_rect] [toy_face toy_rect]
              eq_refl toy_detector_bound eq_refl Hget)
    as (shapes & st' & Hrun & Hrel & Htrace).
  { constructor; [|constructor]. split; [reflexivity|]. vm_compute. lia. }
  exists shapes, st'. split; [exact Hrun|]. split; [exact Hrel|].
  rewrite Htrace. vm_compute. reflexivity.
Defined.

Lemma encode_one_descriptor_per_location_witness :
  let st1 := (LazyStore.get "shape_predictor_68p" toy_state).2 in
  let st2 := (LazyStore.get "face_encoder" st1).2 in
  let rects := [toy_rect; toy_rect2] in
  let faces := toy_face <$> rects in
  encode toy_img (Some toy_locations) Shape.Shape68p 3 toy_state =
    (Ok (toy_descriptor <$> faces),
     State (lazy_vars st2) (world st2)
           (trace st2 ++
            (@EvPredictor toy 0%nat toy_img <$> rects) ++
            ((λ face, @EvEncoder toy 1%nat toy_img face 3) <$> faces))) ∧
  length (toy_descriptor <$> faces) = length toy_locations.
Proof.
  apply (encode_one_descriptor_per_location toy_img toy_locations
           Shape.Shape68p 3 "shape_predictor_68p" 0%nat 1%nat toy_state
           (LazyStore.get "shape_predictor_68p" toy_state).2).
  - reflexivity.
  - exact toy_predictor_bound.
  - apply run_eq. vm_compute. reflexivity.
  - repeat (constructor; [reflexivity|]). constructor.
  - repeat (constructor; [reflexivity|]). constructor.
  - repeat (constructor; [reflexivity|]). constructor.
Defined.

Lemma landmark_base_class_witness :
  landmark toy_img (Some toy_locations) Shape.Shape 1 toy_state =
    (Raise (Exn TypeError "'NoneType' object is not callable"), toy_state) ∧
  ∃ msg, (landmark toy_img (Some toy_locations) Shape.Shape 1 toy_state).1 =
         Raise (Exn TypeError msg).
Proof.
  destruct (landmark_base_class toy_img toy_locations 1 toy_state)
    as [Hrun Hclass].
  split; [exact Hrun|]. apply Hclass. discriminate.
Defined.

Lemma pipeline_touches_only_its_models_witness :
  dict (lazy_vars
          (landmark toy_img (Some toy_locations) Shape.Shape68p 1 toy_state).2)
    !! "face_encoder" =
  dict (lazy_vars toy_state) !! "face_encoder".
Proof.
  destruct (pipeline_touches_only_its_models toy_img None Shape.Shape68p 1 1)
    as (_ & _ & Hgiven).
  destruct (Hgiven toy_locations toy_state) as [_ Hdict].
  apply Hdict. intros Hin. apply list_elem_of_singleton in Hin.
  discriminate Hin.
Defined.

Lemma landmark_again_loads_nothing_witness :
  let first := landmark toy_img (Some toy_locations) Shape.Shape68p 1 toy_state in
  let second := landmark toy_img (Some []) Shape.Shape68p 2 first.2 in
  factory_events (trace second.2) = factory_events (trace first.2) ∧
  is_Some (dict (lazy_vars second.2) !! "shape_predictor_68p").
Proof.
  apply (landmark_again_loads_nothing "shape_predictor_68p" toy_img
           toy_locations Shape.Shape68p 1 toy_state
           (result [] (landmark toy_img (Some toy_locations) Shape.Shape68p 1
                         toy_state))).
  - reflexivity.
  - apply run_eq. vm_compute. reflexivity.
Defined.

End PipelineWitnesses.

Section PickyWitness.
Existing Instance picky.

Lemma picky_predictor_bound :
  LazyStore.get "shape_predictor_68p" picky_state =
  (Ok 0%nat, (LazyStore.get "shape_predictor_68p" picky_state).2).
Proof. apply run_eq. vm_compute. reflexivity. Qed.

Lemma landmark_stops_at_first_failure_witness :
  let st1 := (LazyStore.get "shape_predictor_68p" picky_state).2 in
  landmark picky_img (Some ([(0, 0, 9, 9)] ++ bad_location :: [(5, 5, 20, 20)]))
           Shape.Shape68p 1 picky_state =
    (Raise (Exn RuntimeError "rectangle outside the image"),
     State (lazy_vars st1) (world st1)
           (trace st1 ++
            (@EvPredictor picky 0%nat picky_img <$> [toy_rect] ++ [bad_rect]))) ∧
  landmark picky_img (Some ([(0, 0, 9, 9)] ++ huge_location :: [(5, 5, 20, 20)]))
           Shape.Shape68p 1 picky_state =
    (Raise (Exn TypeError "__init__(): incompatible constructor arguments"),
     State (lazy_vars st1) (world st1)
           (trace st1 ++ (@EvPredictor picky 0%nat picky_img <$> [toy_rect]))).
Proof.
  assert (Forall2 (λ loc r, _tuple_to_rect loc = Ok r)
            [(0, 0, 9, 9)%Z] [toy_rect]) as Hrects
    by (constructor; [reflexivity|constructor]).
  assert (Forall2 (λ r face, @call_predictor picky 0%nat picky_img r = Ok face)
            [toy_rect] [toy_face toy_rect]) as Hfaces
    by (constructor; [reflexivity|constructor]).
  split.
  - destruct (landmark_stops_at_first_failure picky_img [(0, 0, 9, 9)%Z]
                bad_location [(5, 5, 20, 20)%Z] Shape.Shape68p 1
                "shape_predictor_68p" 0%nat picky_state _ [toy_rect]
                [toy_face toy_rect] eq_refl picky_predictor_bound
                Hrects Hfaces) as [Hraise _].
    apply (Hraise bad_rect); reflexivity.
  - destruct (landmark_stops_at_first_failure picky_img [(0, 0, 9, 9)%Z]
                huge_location [(5, 5, 20, 20)%Z] Shape.Shape68p 1
                "shape_predictor_68p" 0%nat picky_state _ [toy_rect]
                [toy_face toy_rect] eq_refl picky_predictor_bound
                Hrects Hfaces) as [_ Hreject].
    apply Hreject. vm_compute. reflexivity.
Defined.

End PickyWitness.

Lemma save_twice_witness :
  let s1 := (Atlas.save (Atlas.St toy_atlas empty_disk)).2 in
  Atlas.save s1 = (Ok tt, s1).
Proof.
  apply (save_twice (Atlas.St toy_atlas empty_disk)).
  apply run_eq. vm_compute. reflexivity.
Defined.

Lemma save_then_load_same_object_witness :
  let s1 := (Atlas.save (Atlas.St toy_atlas empty_disk)).2 in
  Atlas.load s1 = (Ok tt, s1).
Proof.
  apply (save_then_load_same_object (Atlas.St toy_atlas empty_disk)).
  apply run_eq. vm_compute. reflexivity.
Defined.

Lemma load_clears_before_update_witness :
  ∃ e, isinstance e TypeError = true ∧
       Atlas.load (Atlas.St toy_atlas foreign_disk) =
         (Raise e, Atlas.St ∅ foreign_disk).
Proof.
  apply (load_clears_before_update (Atlas.St toy_atlas foreign_disk)
           "atlas.pkl" (PInt 5)); reflexivity.
Defined.

Lemma load_installs_any_dict_witness :
  Atlas.load (Atlas.St toy_atlas odd_disk) =
  (Ok tt, Atlas.St (list_to_map odd_items) odd_disk).
Proof.
  apply (load_installs_any_dict (Atlas.St toy_atlas odd_disk) "atlas.pkl"
           odd_items); [reflexivity|reflexivity|].
  apply (bool_decide_unpack _). vm_compute. exact I.
Defined.

Lemma disk_frame_witness :
  files (Atlas.dsk (Atlas.save (Atlas.St toy_atlas empty_disk)).2)
    !! "elsewhere.pkl" =
  files empty_disk !! "elsewhere.pkl".
Proof.
  destruct (disk_frame (Atlas.St toy_atlas empty_disk))
    as (_ & _ & _ & _ & Hother).
  apply (Hother "elsewhere.pkl"). discriminate.
Defined.

